(** * HemoScan front end: result normalization and local persistence

    A shallow embedding of the three service modules of the front end,

      - [services/apiService.ts]    (structured backend, [mapBackendToFrontend]),
      - [services/geminiService.ts] (generative fallback and the mock generator),
      - [services/storage.ts]       (users table, session pointer, histories),

    together with the properties the specification states about them. *)

From Stdlib Require Import ZArith QArith Qround Qabs Qminmax Lqa Lia List String Ascii Bool.
From stdpp Require Import gmap strings.

(** * JavaScript numbers and the numeric built-ins the services call *)

Module JS.

Local Open Scope Q_scope.

(** A JavaScript number is a finite value or [NaN].  A finite double is
    represented by the rational it denotes, and [+], [-], [*] are taken
    exactly, where the double operations round their result to the nearest
    double.  The two agree up to that rounding, which can move a value
    across a decimal tie or a threshold next to it; the statements about
    numbers below are therefore ranges, orderings and distances, which hold
    for both.  [NaN] is kept because the services produce it from absent
    fields ([undefined - 0.9]). *)
Inductive number := NaN | Num (q : Q).

(** [ToBoolean] on a number: [0] and [NaN] are falsy. *)
Definition truthy (x : number) : bool :=
  match x with
  | NaN => false
  | Num q => negb (Qeq_bool q 0)
  end.

(** [ToNumber] on a possibly absent numeric field: [undefined] becomes [NaN]. *)
Definition ToNumber (x : option number) : number :=
  match x with
  | Some v => v
  | None => NaN
  end.

(** [x || d] where [x] is a possibly absent numeric field. *)
Definition or_number (x : option number) (d : number) : number :=
  match x with
  | Some v => if truthy v then v else d
  | None => d
  end.

(** [x || d] where [x] is a possibly absent string field: [""] is falsy. *)
Definition or_string (x : option string) (d : string) : string :=
  match x with
  | Some EmptyString => d
  | Some s => s
  | None => d
  end.

(** [x || d] where [x] is a possibly absent array or object: always truthy
    when present. *)
Definition or_object {A} (x : option A) (d : A) : A :=
  match x with
  | Some v => v
  | None => d
  end.

(** [x ?? d]: only [undefined] and [null] select the default. *)
Definition nullish {A} (x : option A) (d : A) : A :=
  match x with
  | Some v => v
  | None => d
  end.

Definition lift2 (f : Q -> Q -> Q) (x y : number) : number :=
  match x, y with
  | Num a, Num b => Num (f a b)
  | _, _ => NaN
  end.

Definition add : number -> number -> number := lift2 Qplus.
Definition sub : number -> number -> number := lift2 Qminus.
Definition mul : number -> number -> number := lift2 Qmult.

Definition Qltb (a b : Q) : bool := negb (Qle_bool b a).

(** [x < y], [x > y], [x <= y]: every comparison with [NaN] is false. *)
Definition lt (x y : number) : bool :=
  match x, y with
  | Num a, Num b => Qltb a b
  | _, _ => false
  end.

Definition gt (x y : number) : bool := lt y x.

Definition le (x y : number) : bool :=
  match x, y with
  | Num a, Num b => Qle_bool a b
  | _, _ => false
  end.

(** [Math.max] and [Math.min] of two arguments: [NaN] if either is. *)
Definition Math_max (x y : number) : number :=
  match x, y with
  | Num a, Num b => Num (if Qle_bool a b then b else a)
  | _, _ => NaN
  end.

Definition Math_min (x y : number) : number :=
  match x, y with
  | Num a, Num b => Num (if Qle_bool a b then a else b)
  | _, _ => NaN
  end.

Definition Math_floor (x : number) : number :=
  match x with
  | Num a => Num (inject_Z (Qfloor a))
  | NaN => NaN
  end.

(** The integer [n] that [Number.prototype.toFixed] picks for a value
    already scaled by [10^digits]: the nearest one, the larger in magnitude
    on a tie (the sign is split off first). *)
Definition round_half_away (q : Q) : Z :=
  if Qle_bool 0 q then Qfloor (q + (1 # 2)) else (- Qfloor (- q + (1 # 2)))%Z.

Definition scale (digits : nat) : Q := inject_Z (10 ^ Z.of_nat digits).

(** [toFixed] switches to [ToString] from [10^21] on, which [parseFloat]
    reads back unchanged. *)
Definition toFixed_limit : Q := inject_Z (10 ^ 21).

Definition roundQ (digits : nat) (q : Q) : Q :=
  if Qle_bool toFixed_limit (Qabs q) then q
  else inject_Z (round_half_away (q * scale digits)) / scale digits.

(** [parseFloat(x.toFixed(digits))]: ["NaN"] parses to [NaN]. *)
Definition parseFloat_toFixed (x : number) (digits : nat) : number :=
  match x with
  | NaN => NaN
  | Num q => Num (roundQ digits q)
  end.

(** Propositional readings used in statements. *)
Definition is_value (x : number) (q : Q) : Prop :=
  match x with
  | Num p => p == q
  | NaN => False
  end.

Definition between (lo hi : Q) (x : number) : Prop :=
  match x with
  | Num p => lo <= p <= hi
  | NaN => False
  end.

(** ** Strings *)

(** [toLowerCase] on the ASCII letters. *)
Definition lower_ascii (c : ascii) : ascii :=
  let n := nat_of_ascii c in
  if ((65 <=? n) && (n <=? 90))%nat then ascii_of_nat (n + 32) else c.

Fixpoint toLowerCase (s : string) : string :=
  match s with
  | EmptyString => EmptyString
  | String c r => String (lower_ascii c) (toLowerCase r)
  end.

(** [s.includes(needle)]: [needle] occurs at some position of [s]. *)
Fixpoint includes (s needle : string) : bool :=
  String.prefix needle s ||
  match s with
  | EmptyString => false
  | String _ r => includes r needle
  end.

(** [s.length]: the number of UTF-16 code units of the text whose UTF-8
    bytes are [s].  A byte below 0x80 and a lead byte from 0xC0 to 0xEF
    start a character of one unit, a lead byte from 0xF0 starts a character
    of two units (a surrogate pair), and a continuation byte 0x80 to 0xBF
    adds nothing. *)
Definition units_of_byte (c : ascii) : nat :=
  let n := nat_of_ascii c in
  if (n <? 128)%nat then 1%nat
  else if (n <? 192)%nat then 0%nat
  else if (n <? 240)%nat then 1%nat
  else 2%nat.

Fixpoint code_units (s : string) : nat :=
  match s with
  | EmptyString => 0%nat
  | String c r => (units_of_byte c + code_units r)%nat
  end.

End JS.

(** Completion of a call: a value, or a thrown exception. *)
Inductive exn := Error (message : string) | TypeError | SyntaxError.

Inductive result (A : Type) := Returns (a : A) | Throws (e : exn).
Arguments Returns {A} a.
Arguments Throws {A} e.

(** * [types.ts] *)

Module Types.

Inductive AnemiaClass := NORMAL | MILD | MODERATE | SEVERE.

Inductive Direction := low | high | normal.

(** The [impact] text of a feature: a literal, or the template
    [`Contribution: ${c.toFixed(3)}`] kept with its argument. *)
Inductive Impact := Text (s : string) | Contribution (c : JS.number).

Record ExplanationFeature := {
  name : string;
  direction : Direction;
  impact : Impact
}.

Record QualityFlags := {
  sharpness_ok : bool;
  brightness_ok : bool;
  glare_detected : bool
}.

Record Explanations := {
  top_contributing_features : list ExplanationFeature
}.

(** The optional [explainability], [preprocessing] and [segmentation]
    members are set by neither service and are left out. *)
Record AnalysisResult := {
  id : string;
  timestamp : Z;
  hb_estimate_g_dl : JS.number;
  hb_ci_95 : JS.number * JS.number;
  anemia_class : AnemiaClass;
  confidence : JS.number;
  tone_group : JS.number;
  quality_flags : QualityFlags;
  explanations : Explanations;
  imageUrl : string
}.

End Types.

Module User.

Inductive Gender := Male | Female | Other.

Record User := {
  id : string;
  email : string;
  password : option string;
  age : Z;
  gender : Gender;
  termsAccepted : bool;
  createdAt : Z;
  shareData : option bool
}.

End User.

(** What the services read from their surroundings on one call: the next
    [generateUUID()], [Date.now()], and the [Math.random()] draws of the mock
    generator in the order it makes them. *)
Record Env := {
  generateUUID : string;
  Date_now : Z;
  random_hb : Q;
  random_confidence : Q;
  random_tone : Q
}.

(** [Math.random()] returns a value in [[0, 1)]. *)
Definition random_ok (r : Q) : Prop := (0 <= r /\ r < 1)%Q.

(** * [services/apiService.ts] *)

(** The JSON envelope of [POST /api/v1/scan] ([backendData : any]); every
    member the code guards with [||], [?.] or [??] may be absent. *)
Module Backend.

Record Feature := {
  feature_name : option string;
  name : option string;
  contribution : option JS.number;
  explanation : option string
}.

Record Prediction := {
  hb_g_per_dl : option JS.number;
  hb_ci_95 : option (JS.number * JS.number);
  uncertainty : option JS.number;
  anemia_class : option string;
  confidence : option JS.number
}.

Record Quality := {
  sharpness_ok : option bool;
  brightness_ok : option bool;
  glare_detected : option bool
}.

Record Preprocessing := {
  tone_cluster : option JS.number
}.

Record Explainability := {
  top_contributing_features : option (list Feature)
}.

Record Data := {
  scan_id : option string;
  prediction : option Prediction;
  quality : option Quality;
  preprocessing : option Preprocessing;
  explainability : option Explainability
}.

End Backend.

Module ApiService.

Import JS.

Definition determineDirection (contribution : number) : Types.Direction :=
  if lt contribution (Num (- (1 # 10))) then Types.low
  else if gt contribution (Num (1 # 10)) then Types.high
  else Types.normal.

(** Lines 67-78: the label is lower-cased (['normal'] when absent or empty)
    and searched for the three keywords in turn. *)
Definition mapAnemiaClass (anemia_class : option string) : Types.AnemiaClass :=
  let anemiaLabel := or_string (option_map toLowerCase anemia_class) "normal" in
  if includes anemiaLabel "severe" then Types.SEVERE
  else if includes anemiaLabel "moderate" then Types.MODERATE
  else if includes anemiaLabel "mild" then Types.MILD
  else Types.NORMAL.

Definition mapFeature (feature : Backend.Feature) : Types.ExplanationFeature :=
  {| Types.name :=
       or_string (Backend.feature_name feature)
         (or_string (Backend.name feature) "Unknown");
     Types.direction :=
       determineDirection (or_number (Backend.contribution feature) (Num 0));
     Types.impact :=
       match Backend.explanation feature with
       | Some (String c s) => Types.Text (String c s)
       | _ => Types.Contribution (or_number (Backend.contribution feature) (Num 0))
       end |}.

Definition placeholders : list Types.ExplanationFeature :=
  [ {| Types.name := "R_G_ratio"; Types.direction := Types.normal;
       Types.impact := Types.Text "Color analysis" |};
    {| Types.name := "vascular_density"; Types.direction := Types.normal;
       Types.impact := Types.Text "Blood vessel analysis" |};
    {| Types.name := "texture"; Types.direction := Types.normal;
       Types.impact := Types.Text "Nail bed texture" |} ].

(** Lines 81-86. *)
Definition mappedFeatures (backendData : Backend.Data) : list Types.ExplanationFeature :=
  let topFeatures :=
    or_object
      (match Backend.explainability backendData with
       | Some e => Backend.top_contributing_features e
       | None => None
       end) [] in
  map mapFeature (firstn 3 topFeatures).

(** Lines 89-90. *)
Definition confidenceOf (prediction : Backend.Prediction) : number :=
  let uncertainty := or_number (Backend.uncertainty prediction) (Num (1 # 10)) in
  Math_max (Num (1 # 2)) (Math_min (Num (99 # 100)) (sub (Num 1) uncertainty)).

(** Lines 63-117.  Reading a member of an absent [prediction] throws. *)
Definition mapBackendToFrontend (env : Env) (backendData : Backend.Data)
    (imageUrl : string) : result Types.AnalysisResult :=
  match Backend.prediction backendData with
  | None => Throws TypeError
  | Some prediction =>
    let anemiaClass := mapAnemiaClass (Backend.anemia_class prediction) in
    let mapped := mappedFeatures backendData in
    let confidence := confidenceOf prediction in
    Returns
      {| Types.id := or_string (Backend.scan_id backendData) (generateUUID env);
         Types.timestamp := Date_now env;
         Types.hb_estimate_g_dl :=
           parseFloat_toFixed (or_number (Backend.hb_g_per_dl prediction) (Num 12)) 1;
         Types.hb_ci_95 :=
           or_object (Backend.hb_ci_95 prediction)
             (parseFloat_toFixed
                (sub (ToNumber (Backend.hb_g_per_dl prediction)) (Num (9 # 10))) 1,
              parseFloat_toFixed
                (add (ToNumber (Backend.hb_g_per_dl prediction)) (Num (9 # 10))) 1);
         Types.anemia_class := anemiaClass;
         Types.confidence := parseFloat_toFixed confidence 2;
         Types.tone_group :=
           or_number
             (match Backend.preprocessing backendData with
              | Some p => Backend.tone_cluster p
              | None => None
              end) (Num 3);
         Types.quality_flags :=
           {| Types.sharpness_ok :=
                nullish (match Backend.quality backendData with
                         | Some q => Backend.sharpness_ok q | None => None end) true;
              Types.brightness_ok :=
                nullish (match Backend.quality backendData with
                         | Some q => Backend.brightness_ok q | None => None end) true;
              Types.glare_detected :=
                nullish (match Backend.quality backendData with
                         | Some q => Backend.glare_detected q | None => None end) false |};
         Types.explanations :=
           {| Types.top_contributing_features :=
                if (0 <? length mapped)%nat then mapped else placeholders |};
         Types.imageUrl := imageUrl |}
  end.

End ApiService.

(** * [services/geminiService.ts] *)

Module GeminiService.

Import JS.

(** Lines 6-35.  The three [if]s run in sequence, each overwriting the
    class chosen so far. *)
Definition generateMockResult (env : Env) (imageUrl : string) : Types.AnalysisResult :=
  let hb := add (Num 11) (sub (mul (Num (random_hb env)) (Num 4)) (Num 2)) in
  let anemiaClass := Types.NORMAL in
  let anemiaClass := if lt hb (Num 11) then Types.MILD else anemiaClass in
  let anemiaClass := if lt hb (Num (95 # 10)) then Types.MODERATE else anemiaClass in
  let anemiaClass := if lt hb (Num 8) then Types.SEVERE else anemiaClass in
  {| Types.id := generateUUID env;
     Types.timestamp := Date_now env;
     Types.hb_estimate_g_dl := parseFloat_toFixed hb 1;
     Types.hb_ci_95 :=
       (parseFloat_toFixed (sub hb (Num (8 # 10))) 1,
        parseFloat_toFixed (add hb (Num (8 # 10))) 1);
     Types.anemia_class := anemiaClass;
     Types.confidence :=
       add (Num (85 # 100)) (mul (Num (random_confidence env)) (Num (1 # 10)));
     Types.tone_group :=
       add (Math_floor (mul (Num (random_tone env)) (Num 5))) (Num 1);
     Types.quality_flags :=
       {| Types.sharpness_ok := true;
          Types.brightness_ok := true;
          Types.glare_detected := false |};
     Types.explanations :=
       {| Types.top_contributing_features :=
            [ {| Types.name := "R_G_ratio";
                 Types.direction := if lt hb (Num 12) then Types.low else Types.normal;
                 Types.impact :=
                   if lt hb (Num 12) then Types.Text "Increases anemia risk"
                   else Types.Text "Healthy coloration" |};
              {| Types.name := "vascular_density";
                 Types.direction := if lt hb (Num 10) then Types.low else Types.normal;
                 Types.impact := Types.Text "Correlation with perfusion" |};
              {| Types.name := "lunula_visibility";
                 Types.direction := Types.normal;
                 Types.impact := Types.Text "Standard morphology" |} ] |};
     Types.imageUrl := imageUrl |}.

(** The object the generative model is asked for, at the types the code
    assigns its members to.  A numeric member that is absent reads as
    [undefined], which the arithmetic turns into [NaN]. *)
Record Data := {
  hb_estimate_g_dl : number;
  anemia_class : Types.AnemiaClass;
  confidence : number;
  tone_group : number;
  quality_flags : Types.QualityFlags;
  explanations : Types.Explanations
}.

(** [JSON.parse(text)]: a syntax error, [null] (whose members cannot be
    read), or an object. *)
Inductive Parsed := ParseThrows | ParsedNull | ParsedObject (data : Data).

(** [ai.models.generateContent(...)]: it rejects, or resolves to a response
    whose [text] may be absent. *)
Inductive Generated := CallThrows (e : exn) | CallReturns (text : option string).

(** The surroundings of one call of the fallback path. *)
Record Service := {
  API_KEY : option string;
  generateContent : Generated;
  JSON_parse : string -> Parsed
}.

(** Lines 45-114, the body of the [try] block: any exception leaves it at
    the first point of failure. *)
Definition tryAnalyze (svc : Service) (env : Env) (base64Image : string)
    : result Types.AnalysisResult :=
  match generateContent svc with
  | CallThrows e => Throws e
  | CallReturns None | CallReturns (Some EmptyString) =>
      Throws (Error "No response from AI")
  | CallReturns (Some text) =>
    match JSON_parse svc text with
    | ParseThrows => Throws SyntaxError
    | ParsedNull => Throws TypeError
    | ParsedObject data =>
      let ciLower := sub (hb_estimate_g_dl data) (Num (9 # 10)) in
      let ciUpper := add (hb_estimate_g_dl data) (Num (9 # 10)) in
      Returns
        {| Types.id := generateUUID env;
           Types.timestamp := Date_now env;
           Types.hb_estimate_g_dl := hb_estimate_g_dl data;
           Types.hb_ci_95 := (parseFloat_toFixed ciLower 1, parseFloat_toFixed ciUpper 1);
           Types.anemia_class := anemia_class data;
           Types.confidence := confidence data;
           Types.tone_group := tone_group data;
           Types.quality_flags := quality_flags data;
           Types.explanations := explanations data;
           Types.imageUrl := base64Image |}
    end
  end.

(** Lines 37-117: without a key the mock result is returned at once; any
    exception of the [try] block is caught and replaced by the mock result. *)
Definition analyzeNailImage (svc : Service) (env : Env) (base64Image : string)
    : result Types.AnalysisResult :=
  match API_KEY svc with
  | None | Some EmptyString => Returns (generateMockResult env base64Image)
  | Some _ =>
    match tryAnalyze svc env base64Image with
    | Returns r => Returns r
    | Throws _ => Returns (generateMockResult env base64Image)
    end
  end.

End GeminiService.

(** * [services/storage.ts] *)

Module Storage.

Definition USERS_TABLE : string := "hemoscan_users_table".
Definition CURRENT_SESSION_KEY : string := "hemoscan_current_session".
Definition HISTORY_TABLE_PREFIX : string := "hemoscan_history_".

Definition DuplicateEmail : exn := Error "User already exists with this email.".
Definition InvalidCredentials : exn := Error "Invalid email or password.".

Section Store.

(** A saved scan is the JSON document [JSON.stringify] writes for it;
    [storage.ts] never looks inside one. *)
Context {Scan : Type}.

(** [localStorage], split by the three kinds of key the module uses (they
    never coincide, see [history_key_not_users] and
    [history_key_not_session]).  Each entry holds the value whose JSON text
    is stored; [None] is an absent key.  Histories are indexed by their
    full key. *)
Record Store := {
  users_table : option (list User.User);
  current_session : option User.User;
  history_tables : gmap string (list Scan)
}.

(** [users.find(pred)]: the first element that satisfies [pred]. *)
Definition find_user (pred : User.User -> bool) (users : list User.User)
    : option User.User :=
  List.find pred users.

(** Lines 22-52.  Everything after the initial [await] runs without
    interruption, so the call is one step on the store. *)
Definition register (env : Env) (email password : string) (age : Z)
    (gender : User.Gender) (termsAccepted : bool) (st : Store)
    : result User.User * Store :=
  let users := JS.or_object (users_table st) [] in
  match find_user (fun u => String.eqb (User.email u) email) users with
  | Some _ => (Throws DuplicateEmail, st)
  | None =>
    let newUser :=
      {| User.id := generateUUID env;
         User.email := email;
         User.password := Some password;
         User.age := age;
         User.gender := gender;
         User.termsAccepted := termsAccepted;
         User.createdAt := Date_now env;
         User.shareData := Some false |} in
    let users := users ++ [newUser] in
    (Returns newUser,
     {| users_table := Some users;
        current_session := Some newUser;
        history_tables := history_tables st |})
  end.

(** [u.password === password] with an optional [password] member. *)
Definition password_is (u : User.User) (password : string) : bool :=
  match User.password u with
  | Some p => String.eqb p password
  | None => false
  end.

(** Lines 54-70. *)
Definition login (email password : string) (st : Store)
    : result User.User * Store :=
  let users := JS.or_object (users_table st) [] in
  match find_user (fun u => String.eqb (User.email u) email && password_is u password) users with
  | None => (Throws InvalidCredentials, st)
  | Some user =>
    (Returns user,
     {| users_table := users_table st;
        current_session := Some user;
        history_tables := history_tables st |})
  end.

(** Lines 72-74. *)
Definition logout (st : Store) : Store :=
  {| users_table := users_table st;
     current_session := None;
     history_tables := history_tables st |}.

(** Lines 76-79. *)
Definition getCurrentUser (st : Store) : option User.User :=
  current_session st.

(** Lines 81-95: the session is written first; the users table is rewritten
    only when its key is present. *)
Definition updateUser (updatedUser : User.User) (st : Store) : Store :=
  let st :=
    {| users_table := users_table st;
       current_session := Some updatedUser;
       history_tables := history_tables st |} in
  match users_table st with
  | Some users =>
    let users :=
      map (fun u => if String.eqb (User.id u) (User.id updatedUser)
                    then updatedUser else u) users in
    {| users_table := Some users;
       current_session := current_session st;
       history_tables := history_tables st |}
  | None => st
  end.

Definition history_key (userId : string) : string :=
  HISTORY_TABLE_PREFIX +:+ userId.

(** Lines 99-106. *)
Definition saveScan (userId : string) (result : Scan) (st : Store) : Store :=
  let key := history_key userId in
  let history := JS.or_object (history_tables st !! key) [] in
  let history := history ++ [result] in
  {| users_table := users_table st;
     current_session := current_session st;
     history_tables := <[key := history]> (history_tables st) |}.

(** Lines 108-112. *)
Definition getUserHistory (userId : string) (st : Store) : list Scan :=
  let key := history_key userId in
  JS.or_object (history_tables st !! key) [].

End Store.

Arguments Store : clear implicits.

End Storage.

(** * Vocabulary of the specification *)

Module Spec.

Local Open Scope Q_scope.




(** [hb_ci_95[0] <= hb_ci_95[1]], as JavaScript compares them. *)
Definition ci_ordered (r : Types.AnalysisResult) : Prop :=
  JS.le (fst (Types.hb_ci_95 r)) (snd (Types.hb_ci_95 r)) = true.

(** The confidence score lies in [[0, 1]]. *)
Definition confidence_in_unit (r : Types.AnalysisResult) : Prop :=
  JS.between 0 1 (Types.confidence r).

(** The fallback thresholds, read on a value [e] and a class [c]. *)
Definition threshold_relation (e : Q) (c : Types.AnemiaClass) : Prop :=
  (11 <= e -> c = Types.NORMAL) /\
  ((95 # 10) <= e < 11 -> c = Types.MILD) /\
  (8 <= e < (95 # 10) -> c = Types.MODERATE) /\
  (e < 8 -> c = Types.SEVERE).

(** The same thresholds with the two boundary values 11 and 9.5 left open. *)
Definition threshold_relation_off_boundary (e : Q) (c : Types.AnemiaClass) : Prop :=
  (11 < e -> c = Types.NORMAL) /\
  ((95 # 10) < e < 11 -> c = Types.MILD) /\
  (8 <= e < (95 # 10) -> c = Types.MODERATE) /\
  (e < 8 -> c = Types.SEVERE).

(** All three quality flags pass: sharp, bright, no glare. *)
Definition all_flags_passing (q : Types.QualityFlags) : Prop :=
  Types.sharpness_ok q = true /\
  Types.brightness_ok q = true /\
  Types.glare_detected q = false.

(** The features a structured response supplies ([[]] when the section or
    the list is absent). *)
Definition supplied_features (backendData : Backend.Data) : list Backend.Feature :=
  match Backend.explainability backendData with
  | Some e =>
    match Backend.top_contributing_features e with
    | Some l => l
    | None => []
    end
  | None => []
  end.

(** The value the mock generator draws, [11.0 + (Math.random() * 4 - 2)],
    before any rounding. *)
Definition drawn_hb (env : Env) : Q := 11 + (random_hb env * 4 - 2).

(** The explanation list of a result. *)
Definition features_of (r : Types.AnalysisResult) : list Types.ExplanationFeature :=
  Types.top_contributing_features (Types.explanations r).

(** [clamp(x, lo, hi)]. *)
Definition clamp (x lo hi : Q) : Q := Qmax lo (Qmin hi x).

(** The fallback path has to fabricate: no credential, a failed call, an
    empty response, or a response that does not parse to an object. *)
Definition must_fabricate (svc : GeminiService.Service) : Prop :=
  GeminiService.API_KEY svc = None \/
  GeminiService.API_KEY svc = Some EmptyString \/
  (exists e, GeminiService.generateContent svc = GeminiService.CallThrows e) \/
  GeminiService.generateContent svc = GeminiService.CallReturns None \/
  GeminiService.generateContent svc = GeminiService.CallReturns (Some EmptyString) \/
  (exists text,
     GeminiService.generateContent svc = GeminiService.CallReturns (Some text) /\
     (GeminiService.JSON_parse svc text = GeminiService.ParseThrows \/
      GeminiService.JSON_parse svc text = GeminiService.ParsedNull)).

(** The rows of the users table ([[]] while the key is absent). *)
Definition rows {Scan} (st : Storage.Store Scan) : list User.User :=
  match Storage.users_table st with
  | Some users => users
  | None => []
  end.

(** A log of saves, oldest first, run on a store. *)
Definition save_all {Scan} (log : list (string * Scan)) (st : Storage.Store Scan)
    : Storage.Store Scan :=
  fold_left (fun s p => Storage.saveScan (fst p) (snd p) s) log st.

(** The scans a log holds for one user, oldest first. *)
Definition scans_of {Scan} (userId : string) (log : list (string * Scan))
    : list Scan :=
  map snd (List.filter (fun p => String.eqb (fst p) userId) log).

(** [u] matches an email and credential pair in both fields. *)
Definition matches (email password : string) (u : User.User) : Prop :=
  User.email u = email /\ User.password u = Some password.

End Spec.

(** * Sample inputs *)

Module Examples.

Definition env0 : Env :=
  {| generateUUID := "3f2b8c1e-0000-4000-8000-000000000001";
     Date_now := 1700000000000;
     random_hb := 49 # 100;
     random_confidence := 1 # 2;
     random_tone := 1 # 2 |}.

Definition alice : User.User :=
  {| User.id := "u-alice";
     User.email := "a@x.com";
     User.password := Some "secret1";
     User.age := 30;
     User.gender := User.Female;
     User.termsAccepted := true;
     User.createdAt := 1690000000000;
     User.shareData := Some false |}.

(** A profile whose identifier is in no users table below. *)
Definition stranger : User.User :=
  {| User.id := "u-stranger";
     User.email := "s@x.com";
     User.password := Some "pw";
     User.age := 41;
     User.gender := User.Other;
     User.termsAccepted := true;
     User.createdAt := 1690000000001;
     User.shareData := Some true |}.

Definition empty_store : Storage.Store Types.AnalysisResult :=
  {| Storage.users_table := None;
     Storage.current_session := None;
     Storage.history_tables := ∅ |}.

Definition store_with_alice : Storage.Store Types.AnalysisResult :=
  {| Storage.users_table := Some [alice];
     Storage.current_session := None;
     Storage.history_tables := ∅ |}.

(** Two scans to save. *)
Definition scan1 : Types.AnalysisResult :=
  GeminiService.generateMockResult env0 "data:image/jpeg;base64,AAAA".

Definition scan2 : Types.AnalysisResult :=
  GeminiService.generateMockResult
    {| generateUUID := "3f2b8c1e-0000-4000-8000-000000000002";
       Date_now := 1700000060000;
       random_hb := 80 # 100;
       random_confidence := 1 # 4;
       random_tone := 3 # 4 |} "data:image/jpeg;base64,BBBB".

(** Structured responses. *)
Definition prediction0 : Backend.Prediction :=
  {| Backend.hb_g_per_dl := Some (JS.Num (1234 # 100));
     Backend.hb_ci_95 := None;
     Backend.uncertainty := Some (JS.Num (5 # 100));
     Backend.anemia_class := Some "Normal";
     Backend.confidence := None |}.

Definition respond (p : Backend.Prediction) (features : option (list Backend.Feature))
    : Backend.Data :=
  {| Backend.scan_id := Some "scan-0001";
     Backend.prediction := Some p;
     Backend.quality := None;
     Backend.preprocessing := None;
     Backend.explainability :=
       Some {| Backend.top_contributing_features := features |} |}.

Definition plain_response : Backend.Data := respond prediction0 None.

(** The backend sends its own interval, upper bound first. *)
Definition reversed_ci_response : Backend.Data :=
  respond
    {| Backend.hb_g_per_dl := Some (JS.Num 12);
       Backend.hb_ci_95 := Some (JS.Num 13, JS.Num 11);
       Backend.uncertainty := Some (JS.Num (5 # 100));
       Backend.anemia_class := Some "Normal";
       Backend.confidence := None |} None.

(** The backend sends neither an estimate nor an interval. *)
Definition no_estimate_response : Backend.Data :=
  respond
    {| Backend.hb_g_per_dl := None;
       Backend.hb_ci_95 := None;
       Backend.uncertainty := Some (JS.Num (5 # 100));
       Backend.anemia_class := Some "Normal";
       Backend.confidence := None |} None.

(** The backend reports an uncertainty of exactly zero. *)
Definition zero_uncertainty_response : Backend.Data :=
  respond
    {| Backend.hb_g_per_dl := Some (JS.Num 12);
       Backend.hb_ci_95 := None;
       Backend.uncertainty := Some (JS.Num 0);
       Backend.anemia_class := Some "Normal";
       Backend.confidence := None |} None.

Definition feature0 : Backend.Feature :=
  {| Backend.feature_name := Some "R_mean";
     Backend.name := None;
     Backend.contribution := Some (JS.Num (- (25 # 100)));
     Backend.explanation := None |}.

Definition one_feature_response : Backend.Data :=
  respond prediction0 (Some [feature0]).

Definition five_features_response : Backend.Data :=
  respond prediction0 (Some [feature0; feature0; feature0; feature0; feature0]).

(** Generative responses.  The response text is an opaque token here: what
    [JSON.parse] makes of it is given by [JSON_parse]. *)
Definition overconfident_data : GeminiService.Data :=
  {| GeminiService.hb_estimate_g_dl := JS.Num (124 # 10);
     GeminiService.anemia_class := Types.NORMAL;
     GeminiService.confidence := JS.Num (3 # 2);
     GeminiService.tone_group := JS.Num 3;
     GeminiService.quality_flags :=
       {| Types.sharpness_ok := true;
          Types.brightness_ok := true;
          Types.glare_detected := false |};
     GeminiService.explanations := {| Types.top_contributing_features := [] |} |}.

Definition overconfident_service : GeminiService.Service :=
  {| GeminiService.API_KEY := Some "key";
     GeminiService.generateContent := GeminiService.CallReturns (Some "response.json");
     GeminiService.JSON_parse := fun _ => GeminiService.ParsedObject overconfident_data |}.

Definition keyless_service : GeminiService.Service :=
  {| GeminiService.API_KEY := None;
     GeminiService.generateContent := GeminiService.CallReturns None;
     GeminiService.JSON_parse := fun _ => GeminiService.ParseThrows |}.

End Examples.

(** * [utils/uuid.ts] *)

Module Uuid.

(** [x | 0] on a number: truncation towards zero, then wrap-around into the
    signed 32-bit range. *)
Definition truncate (q : Q) : Z :=
  if Qle_bool 0 q then Qfloor q else Qceiling q.

Definition ToInt32 (q : Q) : Z :=
  ((truncate q + 2 ^ 31) mod 2 ^ 32 - 2 ^ 31)%Z.

Definition hex_digit (d : Z) : ascii :=
  match d with
  | 0 => "0" | 1 => "1" | 2 => "2" | 3 => "3" | 4 => "4" | 5 => "5"
  | 6 => "6" | 7 => "7" | 8 => "8" | 9 => "9" | 10 => "a" | 11 => "b"
  | 12 => "c" | 13 => "d" | 14 => "e" | _ => "f"
  end%Z%char.

(** The base-16 digits of a non-negative integer, most significant first. *)
Fixpoint hex_digits (fuel : nat) (n : Z) (acc : string) : string :=
  match fuel with
  | O => acc
  | S fuel' =>
    let acc' := String (hex_digit (n mod 16)) acc in
    if (n <? 16)%Z then acc' else hex_digits fuel' (n / 16) acc'
  end.

(** [v.toString(16)] on an integer. *)
Definition toString16 (v : Z) : string :=
  if (v <? 0)%Z then String "-" (hex_digits (S (Z.to_nat (- v))) (- v) EmptyString)
  else hex_digits (S (Z.to_nat v)) v EmptyString.

Definition template : string := "xxxxxxxx-xxxx-4xxx-yxxx-xxxxxxxxxxxx".

(** [template.replace(/[xy]/g, callback)]: the callback runs once per [x] or
    [y], left to right, and draws one [Math.random()] each time; [random]
    lists the draws by call number. *)
Fixpoint replace_xy (s : string) (random : nat -> Q) (calls : nat) : string :=
  match s with
  | EmptyString => EmptyString
  | String c rest =>
    if Ascii.eqb c "x" || Ascii.eqb c "y" then
      let r := ToInt32 (random calls * 16) in
      let v := if Ascii.eqb c "x" then r else Z.lor (Z.land r 3) 8 in
      toString16 v +:+ replace_xy rest random (S calls)
    else String c (replace_xy rest random calls)
  end.

(** Lines 112-124 of the listing.  [crypto_randomUUID] is what
    [crypto.randomUUID()] returns where it exists, [None] where it does
    not. *)
Definition generateUUID (crypto_randomUUID : option string) (random : nat -> Q)
    : string :=
  match crypto_randomUUID with
  | Some id => id
  | None => replace_xy template random 0
  end.

(** The textual form of a version-4 UUID: 8-4-4-4-12 lower-case hexadecimal
    digits, the version digit [4] and a variant digit among [8 9 a b]. *)
Definition is_hex (c : ascii) : bool :=
  let n := nat_of_ascii c in
  ((48 <=? n) && (n <=? 57) || (97 <=? n) && (n <=? 102))%nat.

Definition is_variant (c : ascii) : bool :=
  Ascii.eqb c "8" || Ascii.eqb c "9" || Ascii.eqb c "a" || Ascii.eqb c "b".

(** In a shape, [h] stands for a hexadecimal digit, [v] for a variant digit
    and every other character for itself. *)
Definition fits (shape c : ascii) : bool :=
  if Ascii.eqb shape "h" then is_hex c
  else if Ascii.eqb shape "v" then is_variant c
  else Ascii.eqb shape c.

Fixpoint has_shape (shape s : string) : bool :=
  match shape, s with
  | EmptyString, EmptyString => true
  | String p shape', String c s' => fits p c && has_shape shape' s'
  | _, _ => false
  end.

Definition v4_shape : string := "hhhhhhhh-hhhh-4hhh-vhhh-hhhhhhhhhhhh".

Definition is_uuid_v4 (s : string) : bool := has_shape v4_shape s.

(** A template in which [h] and [v] do not occur as literal characters. *)
Fixpoint plain (s : string) : bool :=
  match s with
  | EmptyString => true
  | String c rest => negb (Ascii.eqb c "h") && negb (Ascii.eqb c "v") && plain rest
  end.

(** The shape a template stands for. *)
Fixpoint shape_of (template : string) : string :=
  match template with
  | EmptyString => EmptyString
  | String c rest =>
    String (if Ascii.eqb c "x" then "h" else if Ascii.eqb c "y" then "v" else c)%char
           (shape_of rest)
  end.

End Uuid.

(** * [services/apiService.ts], the request *)

Module ApiCall.

(** A thrown value: an [Error] object (of whatever subclass) with its
    [name] and [message], or something that is not an [Error]. *)
Inductive thrown := ErrorObject (name message : string) | OtherValue.

(** What [response.json()] gives: a rejection with a [SyntaxError], [null],
    or an object, read as [errorData] (its [detail]) on a failed request and
    as [backendData] on a successful one. *)
Inductive Body :=
  | BodyInvalid (message : string)
  | BodyNull
  | BodyObject (detail : option string) (data : Backend.Data).

Record Response := {
  status : Z;
  body : Body
}.

(** [response.ok]: the status is in the range 200-299. *)
Definition ok (response : Response) : bool :=
  ((200 <=? status response) && (status response <=? 299))%Z.

Inductive Fetched := FetchRejects (e : thrown) | FetchResolves (response : Response).

(** The surroundings of one request: whether [atob] throws on its argument,
    what [fetch] settles to, and the text the engine puts in the
    [TypeError] of a member read on [null] or [undefined]. *)
Record Network := {
  atob_throws : option string -> option thrown;
  fetch : Fetched;
  typeErrorMessage : string
}.

Inductive settled := Fulfilled (r : Types.AnalysisResult) | Rejected (e : thrown).

Inductive attempt := Done (r : Types.AnalysisResult) | Threw (e : thrown).

Fixpoint until_comma (s : string) : string :=
  match s with
  | EmptyString => EmptyString
  | String c rest => if Ascii.eqb c "," then EmptyString else String c (until_comma rest)
  end.

(** [s.split(',')[1]]: the piece between the first and the second comma,
    [undefined] when there is no comma. *)
Fixpoint split_comma_1 (s : string) : option string :=
  match s with
  | EmptyString => None
  | String c rest => if Ascii.eqb c "," then Some (until_comma rest) else split_comma_1 rest
  end.

(** Lines 11-45, the body of the [try] block. *)
Definition tryAnalyze (net : Network) (env : Env) (base64Image : string) : attempt :=
  let base64Data := split_comma_1 base64Image in
  match atob_throws net base64Data with
  | Some e => Threw e
  | None =>
    match fetch net with
    | FetchRejects e => Threw e
    | FetchResolves response =>
      if negb (ok response) then
        match body response with
        | BodyInvalid message => Threw (ErrorObject "SyntaxError" message)
        | BodyNull => Threw (ErrorObject "TypeError" (typeErrorMessage net))
        | BodyObject detail _ =>
          if (status response =? 400)%Z
          then Threw (ErrorObject "Error" (JS.or_string detail "Validation failed"))
          else Threw (ErrorObject "Error" (JS.or_string detail "Analysis failed"))
        end
      else
        match body response with
        | BodyInvalid message => Threw (ErrorObject "SyntaxError" message)
        | BodyNull => Threw (ErrorObject "TypeError" (typeErrorMessage net))
        | BodyObject _ data =>
          match ApiService.mapBackendToFrontend env data base64Image with
          | Returns r => Done r
          | Throws _ => Threw (ErrorObject "TypeError" (typeErrorMessage net))
          end
        end
    end
  end.

(** Lines 9-58: the [catch] block rethrows an [Error] whose message
    contains ["hand"] and wraps everything else in a new [Error]. *)
Definition analyzeNailImage (net : Network) (env : Env) (base64Image : string)
    : settled :=
  match tryAnalyze net env base64Image with
  | Done r => Fulfilled r
  | Threw (ErrorObject name message) =>
    if JS.includes message "hand" then Rejected (ErrorObject name message)
    else Rejected (ErrorObject "Error" message)
  | Threw OtherValue => Rejected (ErrorObject "Error" "Failed to analyze image")
  end.

(** Lines 131-138. *)
Definition checkBackendHealth (health : Fetched) : bool :=
  match health with
  | FetchResolves response => ok response
  | FetchRejects _ => false
  end.

(** The message a caller reads off a rejection. *)
Definition message_of (e : thrown) (default : string) : string :=
  match e with
  | ErrorObject _ message => message
  | OtherValue => default
  end.

End ApiCall.

(** * [App.tsx], [pages/Profile.tsx] and [pages/Scan.tsx] *)

Module App.

Inductive ViewState := HOME | SCAN | HISTORY | RESULT | PROFILE.

(** The five [useState] cells of the component. *)
Record State := {
  user : option User.User;
  currentView : ViewState;
  history : list Types.AnalysisResult;
  selectedResult : option Types.AnalysisResult;
  isLoadingAuth : bool
}.

Definition Store : Type := Storage.Store Types.AnalysisResult.

Definition initial : State :=
  {| user := None;
     currentView := HOME;
     history := [];
     selectedResult := None;
     isLoadingAuth := true |}.

(** Lines 21-29, the effect run on mount. *)
Definition onMount (st : State) (store : Store) : State :=
  match Storage.getCurrentUser store with
  | Some currentUser =>
    {| user := Some currentUser;
       currentView := currentView st;
       history := Storage.getUserHistory (User.id currentUser) store;
       selectedResult := selectedResult st;
       isLoadingAuth := false |}
  | None =>
    {| user := user st;
       currentView := currentView st;
       history := history st;
       selectedResult := selectedResult st;
       isLoadingAuth := false |}
  end.

(** Lines 31-37. *)
Definition handleLogin (loggedInUser : User.User) (st : State) (store : Store) : State :=
  {| user := Some loggedInUser;
     currentView := HOME;
     history := Storage.getUserHistory (User.id loggedInUser) store;
     selectedResult := selectedResult st;
     isLoadingAuth := isLoadingAuth st |}.

(** Lines 39-44. *)
Definition handleLogout (st : State) : State :=
  {| user := None;
     currentView := HOME;
     history := [];
     selectedResult := None;
     isLoadingAuth := isLoadingAuth st |}.

(** Lines 46-48. *)
Definition handleUserUpdate (updatedUser : User.User) (st : State) : State :=
  {| user := Some updatedUser;
     currentView := currentView st;
     history := history st;
     selectedResult := selectedResult st;
     isLoadingAuth := isLoadingAuth st |}.

(** Lines 50-59. *)
Definition handleScanComplete (result : Types.AnalysisResult) (st : State)
    (store : Store) : State * Store :=
  match user st with
  | None => (st, store)
  | Some u =>
    let store := Storage.saveScan (User.id u) result store in
    ({| user := user st;
        currentView := RESULT;
        history := history st ++ [result];
        selectedResult := Some result;
        isLoadingAuth := isLoadingAuth st |},
     store)
  end.

(** Lines 61-64. *)
Definition handleSelectFromHistory (result : Types.AnalysisResult) (st : State) : State :=
  {| user := user st;
     currentView := RESULT;
     history := history st;
     selectedResult := Some result;
     isLoadingAuth := isLoadingAuth st |}.

(** [setCurrentView], handed to the layout and the pages. *)
Definition setCurrentView (view : ViewState) (st : State) : State :=
  {| user := user st;
     currentView := view;
     history := history st;
     selectedResult := selectedResult st;
     isLoadingAuth := isLoadingAuth st |}.

(** Line 69, the [lastResult] handed to the home page:
    [history.length > 0 ? history[history.length - 1] : null]. *)
Definition lastResult (st : State) : option Types.AnalysisResult :=
  if (0 <? length (history st))%nat then history st !! (length (history st) - 1)%nat
  else None.

End App.

Module Profile.

(** [!user.shareData] with an optional member: absent counts as false. *)
Definition not_shareData (user : User.User) : bool :=
  match User.shareData user with
  | Some b => negb b
  | None => true
  end.

(** Lines 15-18 of the page. *)
Definition handleLogout (st : App.State) (store : App.Store) : App.State * App.Store :=
  let store := Storage.logout store in
  (App.handleLogout st, store).

(** Lines 20-32 of the page; [user] is the property the page was rendered
    with. *)
Definition toggleShareData (user : User.User) (st : App.State) (store : App.Store)
    : App.State * App.Store :=
  let newValue := not_shareData user in
  let updatedUser :=
    {| User.id := User.id user;
       User.email := User.email user;
       User.password := User.password user;
       User.age := User.age user;
       User.gender := User.gender user;
       User.termsAccepted := User.termsAccepted user;
       User.createdAt := User.createdAt user;
       User.shareData := Some newValue |} in
  let store := Storage.updateUser updatedUser store in
  (App.handleUserUpdate updatedUser st, store).

End Profile.

Module Scan.

(** The cells of the page that the analysis touches. *)
Record State := {
  capturedImage : option string;
  isProcessing : bool;
  error : option string
}.

(** Lines 116-132 of [pages/Scan.tsx], the page wired to the structured
    backend, with [App.handleScanComplete] as its [onResult]. *)
Definition handleAnalyze (net : ApiCall.Network) (env : Env) (scan : State)
    (st : App.State) (store : App.Store) : State * App.State * App.Store :=
  match capturedImage scan with
  | None | Some EmptyString => (scan, st, store)
  | Some image =>
    match ApiCall.analyzeNailImage net env image with
    | ApiCall.Fulfilled result =>
      let (st', store') := App.handleScanComplete result st store in
      ({| capturedImage := capturedImage scan; isProcessing := false; error := None |},
       st', store')
    | ApiCall.Rejected err =>
      ({| capturedImage := capturedImage scan;
          isProcessing := false;
          error := Some (ApiCall.message_of err "Analysis failed") |},
       st, store)
    end
  end.

(** Lines 428-443 of the listing, the same handler of the page wired to
    the generative fallback. *)
Definition handleAnalyzeFallback (svc : GeminiService.Service) (env : Env)
    (scan : State) (st : App.State) (store : App.Store)
    : State * App.State * App.Store :=
  match capturedImage scan with
  | None | Some EmptyString => (scan, st, store)
  | Some image =>
    match GeminiService.analyzeNailImage svc env image with
    | Returns result =>
      let (st', store') := App.handleScanComplete result st store in
      ({| capturedImage := capturedImage scan; isProcessing := false; error := None |},
       st', store')
    | Throws _ =>
      ({| capturedImage := capturedImage scan;
          isProcessing := false;
          error := Some "Analysis failed. Please try again." |},
       st, store)
    end
  end.

End Scan.

(** * [pages/Auth.tsx] *)

(** Regular expressions without captures, as the sign-in page uses them,
    matched by derivatives. *)
Module Regex.

Inductive regex :=
  | Never
  | Eps
  | Class (p : ascii -> bool)
  | Seq (r s : regex)
  | Alt (r s : regex)
  | Star (r : regex).

(** [r+] and [r{2,}]. *)
Definition Plus (r : regex) : regex := Seq r (Star r).
Definition AtLeast2 (r : regex) : regex := Seq r (Seq r (Star r)).

Fixpoint nullable (r : regex) : bool :=
  match r with
  | Never => false
  | Eps => true
  | Class _ => false
  | Seq r s => nullable r && nullable s
  | Alt r s => nullable r || nullable s
  | Star _ => true
  end.

Fixpoint deriv (c : ascii) (r : regex) : regex :=
  match r with
  | Never => Never
  | Eps => Never
  | Class p => if p c then Eps else Never
  | Seq r s =>
    if nullable r then Alt (Seq (deriv c r) s) (deriv c s) else Seq (deriv c r) s
  | Alt r s => Alt (deriv c r) (deriv c s)
  | Star r => Seq (deriv c r) (Star r)
  end.

(** [/^r$/.test(s)]: the whole of [s] matches [r]. *)
Fixpoint matches (r : regex) (s : string) : bool :=
  match s with
  | EmptyString => nullable r
  | String c s' => matches (deriv c r) s'
  end.

(** The strings a regular expression denotes. *)
Inductive lang : regex -> string -> Prop :=
  | lang_eps : lang Eps EmptyString
  | lang_class p c : p c = true -> lang (Class p) (String c EmptyString)
  | lang_seq r1 r2 s1 s2 : lang r1 s1 -> lang r2 s2 -> lang (Seq r1 r2) (s1 +:+ s2)
  | lang_alt_l r1 r2 s : lang r1 s -> lang (Alt r1 r2) s
  | lang_alt_r r1 r2 s : lang r2 s -> lang (Alt r1 r2) s
  | lang_star_nil r : lang (Star r) EmptyString
  | lang_star_cons r s1 s2 :
      lang r s1 -> lang (Star r) s2 -> lang (Star r) (s1 +:+ s2).

(** Every character of [s] satisfies [p]. *)
Fixpoint all_in (p : ascii -> bool) (s : string) : bool :=
  match s with
  | EmptyString => true
  | String c rest => p c && all_in p rest
  end.

End Regex.

Module Auth.

Import Regex.

Definition in_range (lo hi : nat) (c : ascii) : bool :=
  ((lo <=? nat_of_ascii c) && (nat_of_ascii c <=? hi))%nat.

(** [a-zA-Z] and [a-zA-Z0-9]. *)
Definition alpha (c : ascii) : bool := in_range 97 122 c || in_range 65 90 c.
Definition alnum (c : ascii) : bool := alpha c || in_range 48 57 c.

(** [[a-zA-Z0-9._%+-]] and [[a-zA-Z0-9.-]]. *)
Definition local_char (c : ascii) : bool :=
  alnum c || Ascii.eqb c "." || Ascii.eqb c "_" || Ascii.eqb c "%"
  || Ascii.eqb c "+" || Ascii.eqb c "-".

Definition domain_char (c : ascii) : bool :=
  alnum c || Ascii.eqb c "." || Ascii.eqb c "-".

(** Line 25: [/^[a-zA-Z0-9._%+-]+@[a-zA-Z0-9.-]+\.[a-zA-Z]{2,}$/]. *)
Definition emailRegex : regex :=
  Seq (Plus (Class local_char))
    (Seq (Class (Ascii.eqb "@"))
       (Seq (Plus (Class domain_char))
          (Seq (Class (Ascii.eqb "."))
             (AtLeast2 (Class alpha))))).

(** Lines 23-27. *)
Definition validateEmail (email : string) : bool := matches emailRegex email.

(** The cells of the page that a submission writes. *)
Record State := {
  isLoading : bool;
  error : string
}.

(** [err.message || "Authentication failed"]. *)
Definition message_or_default (e : exn) : string :=
  match e with
  | Error (String c m) => String c m
  | _ => "Authentication failed"
  end.

(** Lines 29-68 with the form in sign-in mode ([isLogin] true), where the
    terms and the age are not looked at; [App.handleLogin] is the page's
    [onLogin].  [password.length] counts UTF-16 code units.  A failed check
    returns before the loading flag is touched.
    The store's [login] throws nothing but its own [Error]. *)
Definition handleSubmit_login (auth : State) (email password : string)
    (st : App.State) (store : App.Store) : State * App.State * App.Store :=
  if negb (validateEmail email) then
    ({| isLoading := isLoading auth;
        error := "Please enter a valid email address." |},
     st, store)
  else if (JS.code_units password <? 6)%nat then
    ({| isLoading := isLoading auth;
        error := "Password must be at least 6 characters long." |},
     st, store)
  else
    match Storage.login email password store with
    | (Returns user, store') =>
      ({| isLoading := false; error := EmptyString |},
       App.handleLogin user st store', store')
    | (Throws err, store') =>
      ({| isLoading := false; error := message_or_default err |}, st, store')
    end.

End Auth.

(** * Vocabulary for the controller *)

Module System.

(** The opposite direction of a feature. *)
Definition opposite (d : Types.Direction) : Types.Direction :=
  match d with
  | Types.low => Types.high
  | Types.high => Types.low
  | Types.normal => Types.normal
  end.

(** [shareData] read as a condition: absent counts as false. *)
Definition shares (u : User.User) : bool :=
  match User.shareData u with
  | Some b => b
  | None => false
  end.

End System.

(** * Further sample inputs *)

Module MoreExamples.

Definition env1 : Env :=
  {| generateUUID := "3f2b8c1e-0000-4000-8000-000000000003";
     Date_now := 1700000120000;
     random_hb := 1 # 4;
     random_confidence := 3 # 4;
     random_tone := 99 # 100 |}.

(** Surroundings in which the generator returns an identifier that the
    sample table already holds. *)
Definition env_taken : Env :=
  {| generateUUID := "u-alice";
     Date_now := 1700000180000;
     random_hb := 1 # 2;
     random_confidence := 1 # 2;
     random_tone := 1 # 2 |}.

Definition bob : User.User :=
  {| User.id := "u-bob";
     User.email := "b@x.com";
     User.password := Some "hunter22";
     User.age := 52;
     User.gender := User.Male;
     User.termsAccepted := true;
     User.createdAt := 1690000000002;
     User.shareData := None |}.

Definition store_with_two : Storage.Store Types.AnalysisResult :=
  {| Storage.users_table := Some [Examples.alice; bob];
     Storage.current_session := Some Examples.alice;
     Storage.history_tables := {[ Storage.history_key "u-alice" := [Examples.scan1] ]} |}.

(** The backend rejects the image: HTTP 400 with a [detail]. *)
Definition no_hand_response : ApiCall.Response :=
  {| ApiCall.status := 400;
     ApiCall.body :=
       ApiCall.BodyObject (Some "no hand detected") Examples.plain_response |}.

Definition no_hand_network : ApiCall.Network :=
  {| ApiCall.atob_throws := fun _ => None;
     ApiCall.fetch := ApiCall.FetchResolves no_hand_response;
     ApiCall.typeErrorMessage := "Cannot read properties of undefined" |}.

(** The backend answers 200 with a plain response. *)
Definition ok_network : ApiCall.Network :=
  {| ApiCall.atob_throws := fun _ => None;
     ApiCall.fetch :=
       ApiCall.FetchResolves
         {| ApiCall.status := 200;
            ApiCall.body := ApiCall.BodyObject None Examples.plain_response |};
     ApiCall.typeErrorMessage := "Cannot read properties of undefined" |}.

Definition image : string := "data:image/jpeg;base64,AAAA".

(** The backend reports an estimate of exactly zero. *)
Definition zero_estimate_prediction : Backend.Prediction :=
  {| Backend.hb_g_per_dl := Some (JS.Num 0);
     Backend.hb_ci_95 := None;
     Backend.uncertainty := Some (JS.Num (5 # 100));
     Backend.anemia_class := Some "Severe";
     Backend.confidence := None |}.

(** The backend is less certain than in [Examples.prediction0]. *)
Definition uncertain_prediction : Backend.Prediction :=
  {| Backend.hb_g_per_dl := Some (JS.Num (101 # 10));
     Backend.hb_ci_95 := None;
     Backend.uncertainty := Some (JS.Num (2 # 10));
     Backend.anemia_class := Some "Mild";
     Backend.confidence := None |}.

Definition scan_ready : Scan.State :=
  {| Scan.capturedImage := Some image;
     Scan.isProcessing := false;
     Scan.error := None |}.

(** The five letters p, a-umlaut, s, s, e-acute: seven bytes, five code
    units. *)
Definition accented_password : string :=
  String "p"
    (String (ascii_of_nat 195) (String (ascii_of_nat 164)
       (String "s" (String "s"
          (String (ascii_of_nat 195) (String (ascii_of_nat 169) EmptyString)))))).

Definition auth_idle : Auth.State :=
  {| Auth.isLoading := false; Auth.error := EmptyString |}.

Definition app_alice : App.State :=
  {| App.user := Some Examples.alice;
     App.currentView := App.SCAN;
     App.history := [Examples.scan1];
     App.selectedResult := None;
     App.isLoadingAuth := false |}.

End MoreExamples.

(** * Facts about the numeric built-ins *)

Section Rounding.

Local Open Scope Q_scope.

Lemma Qle_bool_false (a b : Q) : Qle_bool a b = false -> b < a.
Proof.
  intros H. apply Qnot_le_lt. intros Hle.
  apply Qle_bool_iff in Hle. congruence.
Qed.

Lemma Qfloor_ge_Z (k : Z) (q : Q) : inject_Z k <= q -> (k <= Qfloor q)%Z.
Proof.
  intros H. rewrite <- (Qfloor_Z k). now apply Qfloor_resp_le.
Qed.

Lemma Qfloor_half (k : Z) : Qfloor (inject_Z k + (1 # 2)) = k.
Proof.
  pose proof (Qfloor_le (inject_Z k + (1 # 2))) as Hlo.
  pose proof (Qlt_floor (inject_Z k + (1 # 2))) as Hhi.
  set (f := Qfloor (inject_Z k + (1 # 2))) in *. clearbody f.
  rewrite inject_Z_plus in Hhi.
  unfold Qle, Qlt, Qplus, inject_Z in Hlo, Hhi. simpl in Hlo, Hhi.
  rewrite ?Pos.mul_1_l, ?Pos.mul_1_r in Hlo, Hhi. lia.
Qed.

Lemma Qfloor_le_half (k : Z) (q : Q) :
  q <= inject_Z k -> (Qfloor (q + (1 # 2)) <= k)%Z.
Proof.
  intros H. rewrite <- (Qfloor_half k). apply Qfloor_resp_le. lra.
Qed.

Lemma round_half_away_ge (k : Z) (q : Q) :
  inject_Z k <= q -> (k <= JS.round_half_away q)%Z.
Proof.
  intros H. unfold JS.round_half_away.
  destruct (Qle_bool 0 q) eqn:E.
  - apply Qfloor_ge_Z. lra.
  - assert (Hk : (Qfloor (- q + (1 # 2)) <= - k)%Z).
    { apply Qfloor_le_half. rewrite inject_Z_opp. lra. }
    lia.
Qed.

Lemma round_half_away_le (k : Z) (q : Q) :
  q <= inject_Z k -> (JS.round_half_away q <= k)%Z.
Proof.
  intros H. unfold JS.round_half_away.
  destruct (Qle_bool 0 q) eqn:E.
  - now apply Qfloor_le_half.
  - assert (Hk : (- k <= Qfloor (- q + (1 # 2)))%Z).
    { apply Qfloor_ge_Z. rewrite inject_Z_opp. lra. }
    lia.
Qed.

Lemma round_half_away_mono (x y : Q) :
  x <= y -> (JS.round_half_away x <= JS.round_half_away y)%Z.
Proof.
  intros H. unfold JS.round_half_away.
  destruct (Qle_bool 0 x) eqn:Ex, (Qle_bool 0 y) eqn:Ey.
  - apply Qfloor_resp_le. lra.
  - apply Qle_bool_iff in Ex. apply Qle_bool_false in Ey. lra.
  - apply Qle_bool_false in Ex. apply Qle_bool_iff in Ey.
    assert (0 <= Qfloor (- x + (1 # 2)))%Z by (apply (Qfloor_ge_Z 0); unfold inject_Z; lra).
    assert (0 <= Qfloor (y + (1 # 2)))%Z by (apply (Qfloor_ge_Z 0); unfold inject_Z; lra).
    lia.
  - assert (Qfloor (- y + (1 # 2)) <= Qfloor (- x + (1 # 2)))%Z
      by (apply Qfloor_resp_le; lra).
    lia.
Qed.

Lemma scale_pos (d : nat) : 0 < JS.scale d.
Proof.
  unfold JS.scale. change 0 with (inject_Z 0). rewrite <- Zlt_Qlt.
  apply Z.pow_pos_nonneg; lia.
Qed.

(** A bound that is itself a multiple of [10^-d] survives the rounding. *)
Lemma roundQ_ge (d : nat) (k : Z) (x : Q) :
  inject_Z k / JS.scale d <= x -> inject_Z k / JS.scale d <= JS.roundQ d x.
Proof.
  intros H. unfold JS.roundQ.
  destruct (Qle_bool JS.toFixed_limit (Qabs x)); [exact H |].
  pose proof (scale_pos d) as Hs.
  apply Qmult_le_r with (z := JS.scale d); [exact Hs |].
  assert (Hk : inject_Z k <= x * JS.scale d).
  { apply Qle_trans with (inject_Z k / JS.scale d * JS.scale d).
    - field_simplify; [lra | lra].
    - apply Qmult_le_compat_r; lra. }
  apply round_half_away_ge in Hk. rewrite Zle_Qle in Hk.
  field_simplify; [| lra | lra]. lra.
Qed.

Lemma roundQ_le (d : nat) (k : Z) (x : Q) :
  x <= inject_Z k / JS.scale d -> JS.roundQ d x <= inject_Z k / JS.scale d.
Proof.
  intros H. unfold JS.roundQ.
  destruct (Qle_bool JS.toFixed_limit (Qabs x)); [exact H |].
  pose proof (scale_pos d) as Hs.
  apply Qmult_le_r with (z := JS.scale d); [exact Hs |].
  assert (Hk : x * JS.scale d <= inject_Z k).
  { apply Qle_trans with (inject_Z k / JS.scale d * JS.scale d).
    - apply Qmult_le_compat_r; lra.
    - field_simplify; [lra | lra]. }
  apply round_half_away_le in Hk. rewrite Zle_Qle in Hk.
  field_simplify; [| lra | lra]. lra.
Qed.

Lemma limit_multiple (d : nat) :
  JS.toFixed_limit == inject_Z (10 ^ 21 * 10 ^ Z.of_nat d) / JS.scale d.
Proof.
  pose proof (scale_pos d) as Hs.
  unfold JS.toFixed_limit. rewrite inject_Z_mult. fold (JS.scale d).
  field. lra.
Qed.

Lemma neg_limit_multiple (d : nat) :
  - JS.toFixed_limit == inject_Z (- (10 ^ 21 * 10 ^ Z.of_nat d)) / JS.scale d.
Proof.
  pose proof (scale_pos d) as Hs.
  rewrite (limit_multiple d), inject_Z_opp. field. lra.
Qed.

Lemma beyond_limit (x : Q) :
  Qle_bool JS.toFixed_limit (Qabs x) = true ->
  x <= - JS.toFixed_limit \/ JS.toFixed_limit <= x.
Proof.
  intros H. apply Qle_bool_iff in H. revert H.
  apply Qabs_case; intros; lra.
Qed.

Lemma within_limit (x : Q) :
  Qle_bool JS.toFixed_limit (Qabs x) = false ->
  - JS.toFixed_limit < x /\ x < JS.toFixed_limit.
Proof.
  intros H. apply Qle_bool_false in H. revert H.
  apply Qabs_case; intros; lra.
Qed.

(** [parseFloat(x.toFixed(d))] is monotone in [x]. *)
Lemma roundQ_mono (d : nat) (x y : Q) :
  x <= y -> JS.roundQ d x <= JS.roundQ d y.
Proof.
  intros H.
  destruct (Qle_bool JS.toFixed_limit (Qabs x)) eqn:Ex,
           (Qle_bool JS.toFixed_limit (Qabs y)) eqn:Ey.
  - unfold JS.roundQ. now rewrite Ex, Ey.
  - apply beyond_limit in Ex. apply within_limit in Ey.
    assert (Hx : x <= - JS.toFixed_limit) by lra.
    assert (Hy : JS.roundQ d x <= - JS.toFixed_limit).
    { rewrite neg_limit_multiple. apply roundQ_le.
      rewrite <- neg_limit_multiple. exact Hx. }
    assert (Hz : - JS.toFixed_limit <= JS.roundQ d y).
    { rewrite neg_limit_multiple. apply roundQ_ge.
      rewrite <- neg_limit_multiple. lra. }
    lra.
  - apply within_limit in Ex. apply beyond_limit in Ey.
    assert (Hy : JS.toFixed_limit <= y) by lra.
    assert (Hx : JS.roundQ d x <= JS.toFixed_limit).
    { rewrite (limit_multiple d). apply roundQ_le.
      rewrite <- limit_multiple. lra. }
    assert (Hz : JS.toFixed_limit <= JS.roundQ d y).
    { rewrite (limit_multiple d). apply roundQ_ge.
      rewrite <- limit_multiple. lra. }
    lra.
  - unfold JS.roundQ. rewrite Ex, Ey.
    pose proof (scale_pos d) as Hs.
    apply Qmult_le_r with (z := JS.scale d); [exact Hs |].
    assert (Hxy : x * JS.scale d <= y * JS.scale d)
      by (apply Qmult_le_compat_r; lra).
    apply round_half_away_mono in Hxy. rewrite Zle_Qle in Hxy.
    field_simplify; [| lra | lra]. lra.
Qed.

End Rounding.

(** * How far rounding moves a value *)

Section RoundingError.

Local Open Scope Q_scope.

Import JS.

Lemma round_half_away_near (q : Q) :
  q - (1 # 2) <= inject_Z (round_half_away q) <= q + (1 # 2).
Proof.
  unfold round_half_away. destruct (Qle_bool 0 q).
  - pose proof (Qfloor_le (q + (1 # 2))) as Hlo.
    pose proof (Qlt_floor (q + (1 # 2))) as Hhi.
    rewrite inject_Z_plus in Hhi. change (inject_Z 1) with 1 in Hhi. lra.
  - pose proof (Qfloor_le (- q + (1 # 2))) as Hlo.
    pose proof (Qlt_floor (- q + (1 # 2))) as Hhi.
    rewrite inject_Z_plus in Hhi. change (inject_Z 1) with 1 in Hhi.
    rewrite inject_Z_opp. lra.
Qed.

(** Rounding to [d] decimals moves a value by at most half a unit of the
    last decimal. *)
Lemma roundQ_near (d : nat) (x : Q) :
  x - (1 # 2) / scale d <= roundQ d x <= x + (1 # 2) / scale d.
Proof.
  pose proof (scale_pos d) as Hs.
  assert (Hh : 0 <= (1 # 2) / scale d).
  { apply Qle_shift_div_l; [exact Hs | lra]. }
  unfold roundQ. destruct (Qle_bool toFixed_limit (Qabs x)); [lra |].
  destruct (round_half_away_near (x * scale d)) as [Hlo Hhi].
  split.
  - apply Qmult_le_r with (z := scale d); [exact Hs |].
    field_simplify; [| lra | lra]. lra.
  - apply Qmult_le_r with (z := scale d); [exact Hs |].
    field_simplify; [| lra | lra]. lra.
Qed.

Lemma roundQ_one_decimal (x : Q) :
  x - (1 # 20) <= roundQ 1 x <= x + (1 # 20).
Proof.
  pose proof (roundQ_near 1 x) as H.
  assert (E : (1 # 2) / scale 1 == 1 # 20) by reflexivity.
  rewrite E in H. exact H.
Qed.

End RoundingError.

(** * Facts about the string built-ins *)

Section Strings.

Lemma append_cons (c : ascii) (a b : string) :
  String c a +:+ b = String c (a +:+ b).
Proof. reflexivity. Qed.

Lemma append_nil (b : string) : EmptyString +:+ b = b.
Proof. reflexivity. Qed.








(** The label the keywords are searched in. *)
Lemma anemiaLabel_nonempty (c : ascii) (s : string) :
  JS.or_string (option_map JS.toLowerCase (Some (String c s))) "normal"
  = JS.toLowerCase (String c s).
Proof. reflexivity. Qed.

End Strings.

(** * Label mapping of the structured path *)

Section LabelMapping.

Import Types.






End LabelMapping.

(** * The session and history store *)

Section StoreFacts.

Context {Scan : Type}.
Implicit Types st : Storage.Store Scan.

Import Storage.

(** The three kinds of key never coincide, and distinct users have
    distinct history keys. *)
Lemma history_key_not_users (userId : string) : history_key userId <> USERS_TABLE.
Proof. unfold history_key. cbv [HISTORY_TABLE_PREFIX USERS_TABLE]. discriminate. Qed.

Lemma history_key_not_session (userId : string) :
  history_key userId <> CURRENT_SESSION_KEY.
Proof. unfold history_key. cbv [HISTORY_TABLE_PREFIX CURRENT_SESSION_KEY]. discriminate. Qed.

Lemma users_not_session : USERS_TABLE <> CURRENT_SESSION_KEY.
Proof. discriminate. Qed.

Lemma history_key_inj (a b : string) : history_key a = history_key b -> a = b.
Proof. unfold history_key. cbv [HISTORY_TABLE_PREFIX]. intros H. now inversion H. Qed.

Lemma rows_or_object st : JS.or_object (users_table st) [] = Spec.rows st.
Proof. reflexivity. Qed.

Lemma password_is_spec (u : User.User) (password : string) :
  password_is u password = true <-> User.password u = Some password.
Proof.
  unfold password_is. destruct (User.password u) as [p |].
  - rewrite String.eqb_eq. split; congruence.
  - split; discriminate.
Qed.

Lemma credentials_spec (email password : string) (u : User.User) :
  String.eqb (User.email u) email && password_is u password = true <->
  Spec.matches email password u.
Proof.
  unfold Spec.matches. now rewrite andb_true_iff, String.eqb_eq, password_is_spec.
Qed.

(** C7, as the code has it.  [register] fails with the duplicate-email
    error exactly when some row has the same email (compared exactly,
    letter case included) and then leaves the store as it was.  Otherwise
    it returns a user whose identifier is whatever [generateUUID] produced,
    with [shareData] false, appends that user to the users table and points
    the session at it, so that [getCurrentUser] returns it.  The identifier
    is not compared with the table: the identifiers of a table without
    repetitions stay pairwise distinct exactly when the generated one is
    not among them. *)
Theorem C7_register (env : Env) (email password : string) (age : Z)
    (gender : User.Gender) (termsAccepted : bool) st :
  let out := register env email password age gender termsAccepted st in
  (fst out = Throws DuplicateEmail <->
     exists u, In u (Spec.rows st) /\ User.email u = email) /\
  (fst out = Throws DuplicateEmail -> snd out = st) /\
  ((forall u, In u (Spec.rows st) -> User.email u <> email) ->
   exists newUser,
     fst out = Returns newUser /\
     User.id newUser = generateUUID env /\
     User.email newUser = email /\
     User.password newUser = Some password /\
     User.createdAt newUser = Date_now env /\
     User.shareData newUser = Some false /\
     users_table (snd out) = Some (Spec.rows st ++ [newUser]) /\
     getCurrentUser (snd out) = Some newUser /\
     history_tables (snd out) = history_tables st /\
     (NoDup (map User.id (Spec.rows st)) ->
      (NoDup (map User.id (Spec.rows (snd out))) <->
       ~ In (generateUUID env) (map User.id (Spec.rows st))))).
Proof.
  cbv zeta. unfold register. rewrite rows_or_object. unfold find_user.
  destruct (List.find _ (Spec.rows st)) as [u |] eqn:F.
  - apply find_some in F as [Hin Heq]. apply String.eqb_eq in Heq.
    cbn [fst snd]. split; [| split].
    + split; [intros _; now exists u | reflexivity].
    + reflexivity.
    + intros Hnone. now destruct (Hnone u Hin).
  - cbn [fst snd]. split; [| split].
    + split; [discriminate |].
      intros (u & Hin & Heq). apply (find_none _ _ F) in Hin.
      apply String.eqb_neq in Hin. contradiction.
    + discriminate.
    + intros _. eexists. repeat (split; [reflexivity |]).
      intros Hnodup. unfold Spec.rows at 1. cbn [users_table].
      rewrite map_app. cbn [map User.id]. split.
      * intros Hall Hin. apply NoDup_app in Hall as (_ & Hd & _).
        apply list_elem_of_In in Hin. apply (Hd _ Hin).
        apply list_elem_of_In. now left.
      * intros Hfresh. apply NoDup_app; repeat split; try assumption.
        -- intros x Hx Hx'. apply list_elem_of_In in Hx, Hx'.
           destruct Hx' as [<- | []]. contradiction.
        -- apply NoDup_singleton.
Qed.

(** C8.  When no row matches the email and credential in both fields,
    [login] fails with the invalid-credentials error and the store, session
    pointer included, is untouched.  When some row matches, it returns the
    first matching row and points the session at it, leaving the users
    table and the histories as they were. *)
Theorem C8_login (email password : string) st :
  let out := login email password st in
  ((forall u, In u (Spec.rows st) -> ~ Spec.matches email password u) ->
   fst out = Throws InvalidCredentials /\
   snd out = st /\
   getCurrentUser (snd out) = getCurrentUser st) /\
  ((exists u, In u (Spec.rows st) /\ Spec.matches email password u) ->
   exists user,
     In user (Spec.rows st) /\
     Spec.matches email password user /\
     fst out = Returns user /\
     getCurrentUser (snd out) = Some user /\
     users_table (snd out) = users_table st /\
     history_tables (snd out) = history_tables st).
Proof.
  cbv zeta. unfold login. rewrite rows_or_object. unfold find_user.
  destruct (List.find _ (Spec.rows st)) as [user |] eqn:F; cbn [fst snd].
  - apply find_some in F as [Hin Hm]. apply credentials_spec in Hm. split.
    + intros Hnone. now destruct (Hnone user Hin).
    + intros _. exists user. repeat split; try assumption; apply Hm.
  - split.
    + intros _. repeat split.
    + intros (u & Hin & Hm). apply (find_none _ _ F) in Hin.
      apply credentials_spec in Hm. congruence.
Qed.

(** [getUserHistory] after one [saveScan] for the same user. *)
Lemma getUserHistory_saveScan (userId : string) (r : Scan) st :
  getUserHistory userId (saveScan userId r st) = getUserHistory userId st ++ [r].
Proof.
  unfold getUserHistory, saveScan. cbn [history_tables].
  now rewrite lookup_insert_eq.
Qed.

(** Saving for one user leaves every other user's history alone. *)
Lemma getUserHistory_saveScan_other (userId other : string) (r : Scan) st :
  other <> userId ->
  getUserHistory other (saveScan userId r st) = getUserHistory other st.
Proof.
  intros Hne. unfold getUserHistory, saveScan. cbn [history_tables].
  rewrite lookup_insert_ne; [reflexivity |].
  intros H. apply history_key_inj in H. congruence.
Qed.

(** The history of a user after any log of saves, whoever they are for. *)
Lemma getUserHistory_save_all (userId : string) (log : list (string * Scan)) st :
  getUserHistory userId (Spec.save_all log st)
    = getUserHistory userId st ++ Spec.scans_of userId log.
Proof.
  unfold Spec.save_all, Spec.scans_of. revert st.
  induction log as [| [who r] log IH]; intros st; cbn [fold_left List.filter fst snd].
  - cbn [map]. now rewrite app_nil_r.
  - rewrite IH. destruct (String.eqb_spec who userId) as [-> | Hne].
    + rewrite getUserHistory_saveScan. cbn [map snd]. now rewrite <- app_assoc.
    + rewrite getUserHistory_saveScan_other by congruence. reflexivity.
Qed.

(** C9.  Saving [r1] and then [r2] for a user extends that user's history
    by [[r1; r2]], in this order, whatever the store held before, and
    leaves the history of every other user as it was.  More generally,
    after any log of saves a user's history is the earlier one extended by
    the scans the log holds for that user, in order.  A user whose history
    key is absent has the empty history, and keeps it through every log
    that saves nothing for that user. *)
Theorem C9_history_append (userId : string) (r1 r2 : Scan) st :
  getUserHistory userId (saveScan userId r2 (saveScan userId r1 st))
    = getUserHistory userId st ++ [r1; r2] /\
  (forall other, other <> userId ->
     getUserHistory other (saveScan userId r2 (saveScan userId r1 st))
       = getUserHistory other st) /\
  (forall log,
     getUserHistory userId (Spec.save_all log st)
       = getUserHistory userId st ++ Spec.scans_of userId log) /\
  (history_tables st !! history_key userId = None ->
   getUserHistory userId st = [] /\
   getUserHistory userId (saveScan userId r2 (saveScan userId r1 st)) = [r1; r2] /\
   (forall log, Spec.scans_of userId log = [] ->
      getUserHistory userId (Spec.save_all log st) = [])).
Proof.
  assert (H : getUserHistory userId (saveScan userId r2 (saveScan userId r1 st))
              = getUserHistory userId st ++ [r1; r2]).
  { rewrite !getUserHistory_saveScan. now rewrite <- app_assoc. }
  split; [exact H |]. split; [| split].
  - intros other Hne. now rewrite !getUserHistory_saveScan_other.
  - intros log. apply getUserHistory_save_all.
  - intros Hnone.
    assert (He : getUserHistory userId st = [])
      by (unfold getUserHistory; now rewrite Hnone).
    split; [exact He |]. split; [now rewrite H, He |].
    intros log Hlog. now rewrite getUserHistory_save_all, He, Hlog.
Qed.

(** Replacing by identifier changes nothing when no row has it. *)
Lemma replace_absent (u : User.User) (users : list User.User) :
  (forall x, In x users -> User.id x <> User.id u) ->
  map (fun x => if String.eqb (User.id x) (User.id u) then u else x) users = users.
Proof.
  induction users as [| x users IH]; intros Hfresh; [reflexivity |].
  cbn [map]. rewrite IH by (intros y Hy; apply Hfresh; now right).
  destruct (String.eqb_spec (User.id x) (User.id u)) as [Heq | _];
    [| reflexivity].
  exfalso. apply (Hfresh x); [now left | exact Heq].
Qed.

(** C10.  [updateUser] writes the session pointer first and whatever the
    users table holds: afterwards [getCurrentUser] returns the given user.
    When no row carries that identifier the users table keeps its rows, so
    the session points at a user that is not in the table. *)
Theorem C10_updateUser_session (u : User.User) st :
  getCurrentUser (updateUser u st) = Some u /\
  history_tables (updateUser u st) = history_tables st /\
  ((forall x, In x (Spec.rows st) -> User.id x <> User.id u) ->
   Spec.rows (updateUser u st) = Spec.rows st /\
   (users_table st = None -> users_table (updateUser u st) = None) /\
   ~ In u (Spec.rows (updateUser u st))).
Proof.
  unfold updateUser. cbn [users_table current_session history_tables].
  destruct (users_table st) as [users |] eqn:E;
    (split; [reflexivity | split; [reflexivity |]]); intros Hfresh;
    unfold Spec.rows in *; cbn [users_table]; rewrite E in *.
  - assert (Hmap := replace_absent u users Hfresh). cbv beta in Hmap.
    rewrite Hmap. split; [reflexivity | split; [discriminate |]].
    intros Hin. now apply (Hfresh u Hin).
  - split; [reflexivity | split; [reflexivity |]]. intros [].
Qed.

End StoreFacts.

(** The scenarios of the specification, run on the sample stores. *)

Lemma C7_register_witness :
  exists newUser,
    fst (Storage.register Examples.env0 "a@x.com" "secret1" 30 User.Female true
           Examples.empty_store) = Returns newUser /\
    User.id newUser = generateUUID Examples.env0 /\
    User.email newUser = "a@x.com" /\
    User.password newUser = Some "secret1" /\
    User.createdAt newUser = Date_now Examples.env0 /\
    User.shareData newUser = Some false /\
    Storage.users_table
      (snd (Storage.register Examples.env0 "a@x.com" "secret1" 30 User.Female true
              Examples.empty_store)) = Some ([] ++ [newUser]) /\
    Storage.getCurrentUser
      (snd (Storage.register Examples.env0 "a@x.com" "secret1" 30 User.Female true
              Examples.empty_store)) = Some newUser /\
    Storage.history_tables
      (snd (Storage.register Examples.env0 "a@x.com" "secret1" 30 User.Female true
              Examples.empty_store)) = ∅ /\
    (NoDup (map User.id []) ->
     (NoDup (map User.id
               (Spec.rows
                  (snd (Storage.register Examples.env0 "a@x.com" "secret1" 30
                          User.Female true Examples.empty_store)))) <->
      ~ In (generateUUID Examples.env0) (map User.id []))).
Proof.
  apply (C7_register Examples.env0 "a@x.com" "secret1" 30 User.Female true
           Examples.empty_store).
  intros u [].
Defined.

(** C7 as stated fails: the new identifier need not be fresh.  When the
    generator returns an identifier the table already holds, [register]
    succeeds and two rows carry the same identifier. *)
Lemma C7_counterexample :
  let out := Storage.register MoreExamples.env_taken "c@x.com" "secret3" 27
               User.Other true Examples.store_with_alice in
  (forall u, In u (Spec.rows Examples.store_with_alice) -> User.email u <> "c@x.com") /\
  NoDup (map User.id (Spec.rows Examples.store_with_alice)) /\
  exists newUser,
    fst out = Returns newUser /\
    Spec.rows (snd out) = [Examples.alice; newUser] /\
    newUser <> Examples.alice /\
    User.id newUser = User.id Examples.alice /\
    map User.id (Spec.rows (snd out)) = ["u-alice"; "u-alice"] /\
    ~ NoDup (map User.id (Spec.rows (snd out))).
Proof.
  cbv zeta. split; [| split].
  - intros u [<- | []]. discriminate.
  - apply NoDup_singleton.
  - eexists. split; [reflexivity |]. split; [reflexivity |].
    split; [discriminate |]. split; [reflexivity |]. split; [reflexivity |].
    intros H. apply NoDup_cons in H as [Hn _]. apply Hn. now left.
Qed.

(** The email comparison is exact: a differently cased email is not a
    duplicate. *)
Lemma register_case_sensitive :
  exists newUser,
    fst (Storage.register Examples.env0 "A@x.com" "secret2" 31 User.Male true
           Examples.store_with_alice) = Returns newUser /\
    User.email newUser = "A@x.com".
Proof. eexists. split; reflexivity. Qed.

Lemma C8_login_witness :
  fst (Storage.login "a@x.com" "wrong" Examples.store_with_alice)
    = Throws Storage.InvalidCredentials /\
  snd (Storage.login "a@x.com" "wrong" Examples.store_with_alice)
    = Examples.store_with_alice /\
  Storage.getCurrentUser
    (snd (Storage.login "a@x.com" "wrong" Examples.store_with_alice)) = None.
Proof.
  apply (C8_login "a@x.com" "wrong" Examples.store_with_alice).
  intros u [<- | []] [_ H]. discriminate H.
Defined.

Lemma C9_history_append_witness :
  Storage.getUserHistory "u-alice" Examples.empty_store = [] /\
  Storage.getUserHistory "u-alice"
    (Storage.saveScan "u-alice" Examples.scan2
       (Storage.saveScan "u-alice" Examples.scan1 Examples.empty_store))
    = [Examples.scan1; Examples.scan2] /\
  Storage.getUserHistory "u-bob"
    (Storage.saveScan "u-alice" Examples.scan2
       (Storage.saveScan "u-alice" Examples.scan1 Examples.empty_store))
    = Storage.getUserHistory "u-bob" Examples.empty_store /\
  Storage.getUserHistory "u-alice"
    (Spec.save_all [("u-bob", Examples.scan1)] Examples.empty_store) = [].
Proof.
  destruct (C9_history_append "u-alice" Examples.scan1 Examples.scan2
              Examples.empty_store) as (_ & Hframe & _ & Habsent).
  destruct (Habsent (lookup_empty _)) as (He & H12 & Hlog).
  split; [exact He |]. split; [exact H12 |]. split.
  - apply Hframe. discriminate.
  - apply Hlog. reflexivity.
Defined.

Lemma C10_updateUser_session_witness :
  Spec.rows (Storage.updateUser Examples.stranger Examples.store_with_alice)
    = [Examples.alice] /\
  (Storage.users_table Examples.store_with_alice = None ->
   Storage.users_table
     (Storage.updateUser Examples.stranger Examples.store_with_alice) = None) /\
  ~ In Examples.stranger
      (Spec.rows (Storage.updateUser Examples.stranger Examples.store_with_alice)).
Proof.
  apply (C10_updateUser_session Examples.stranger Examples.store_with_alice).
  intros x [<- | []]. discriminate.
Defined.

(** * Normalization of a structured response *)

Section Structured.

Local Open Scope Q_scope.

Import JS.

Lemma or_number_cases (x : option number) (d : Q) :
  (exists q, x = Some (Num q) /\ ~ q == 0 /\ or_number x (Num d) = Num q) \/
  ((x = None \/ x = Some NaN \/ exists q, x = Some (Num q) /\ q == 0) /\
   or_number x (Num d) = Num d).
Proof.
  destruct x as [[| q] |]; cbn [or_number truthy].
  - right. split; [right; now left | reflexivity].
  - destruct (Qeq_bool q 0) eqn:E; cbn [negb].
    + right. apply Qeq_bool_iff in E. split; [| reflexivity].
      right. right. now exists q.
    + left. exists q. repeat split. intros H.
      apply Qeq_bool_iff in H. congruence.
  - right. split; [now left | reflexivity].
Qed.

Lemma Math_clamp_bounds (lo hi x : Q) :
  lo <= hi ->
  exists c, Math_max (Num lo) (Math_min (Num hi) (Num x)) = Num c /\ lo <= c <= hi /\
            c == Spec.clamp x lo hi.
Proof.
  intros Hle. cbn [Math_max Math_min]. eexists. split; [reflexivity |].
  unfold Spec.clamp.
  destruct (Qle_bool hi x) eqn:E1.
  - apply Qle_bool_iff in E1. rewrite (Q.min_l hi x) by exact E1.
    destruct (Qle_bool lo hi) eqn:E2.
    + rewrite (Q.max_r lo hi) by exact Hle. split; [lra | reflexivity].
    + apply Qle_bool_false in E2. lra.
  - apply Qle_bool_false in E1. rewrite (Q.min_r hi x) by lra.
    destruct (Qle_bool lo x) eqn:E2.
    + apply Qle_bool_iff in E2. rewrite (Q.max_r lo x) by exact E2.
      split; [lra | reflexivity].
    + apply Qle_bool_false in E2. rewrite (Q.max_l lo x) by lra.
      split; [lra | reflexivity].
Qed.

(** The confidence before rounding is a number between 0.5 and 0.99. *)
Lemma confidenceOf_bounds (p : Backend.Prediction) :
  exists c, ApiService.confidenceOf p = Num c /\ (1 # 2) <= c <= (99 # 100).
Proof.
  unfold ApiService.confidenceOf.
  destruct (or_number_cases (Backend.uncertainty p) (1 # 10))
    as [(q & _ & _ & ->) | (_ & ->)]; cbn [sub lift2];
    match goal with
    | |- context [Math_min _ (Num ?x)] =>
        destruct (Math_clamp_bounds (1 # 2) (99 # 100) x) as (c & Hc & Hb & _);
        [lra | exists c; now split]
    end.
Qed.

Lemma roundQ_between (d : nat) (klo khi : Z) (lo hi x : Q) :
  lo == inject_Z klo / scale d -> hi == inject_Z khi / scale d ->
  lo <= x <= hi -> lo <= roundQ d x <= hi.
Proof.
  intros Hlo Hhi [H1 H2]. split.
  - rewrite Hlo. apply roundQ_ge. now rewrite <- Hlo.
  - rewrite Hhi. apply roundQ_le. now rewrite <- Hhi.
Qed.

(** The stored confidence lies between 0.5 and 0.99 on every response. *)
Lemma confidence_bounds (p : Backend.Prediction) :
  between (1 # 2) (99 # 100) (parseFloat_toFixed (ApiService.confidenceOf p) 2).
Proof.
  destruct (confidenceOf_bounds p) as (c & -> & Hc).
  cbn [parseFloat_toFixed between].
  apply (roundQ_between 2 50 99); [reflexivity | reflexivity | exact Hc].
Qed.

(** An interval synthesized around a number is ordered. *)
Lemma synthesized_ci_ordered (h delta : Q) :
  0 <= delta ->
  le (parseFloat_toFixed (sub (Num h) (Num delta)) 1)
     (parseFloat_toFixed (add (Num h) (Num delta)) 1) = true.
Proof.
  intros Hd. cbn [sub add lift2 parseFloat_toFixed le].
  apply Qle_bool_iff, roundQ_mono. lra.
Qed.

End Structured.

(** * Normalized results: interval and confidence *)

Section NormalizedBounds.

Local Open Scope Q_scope.

Import JS.

(** What [mapBackendToFrontend] stores for the interval and the confidence. *)
Lemma structured_bounds (env : Env) (data : Backend.Data) (img : string)
    (p : Backend.Prediction) :
  Backend.prediction data = Some p ->
  exists r,
    ApiService.mapBackendToFrontend env data img = Returns r /\
    between (1 # 2) (99 # 100) (Types.confidence r) /\
    Spec.confidence_in_unit r /\
    (forall ci, Backend.hb_ci_95 p = Some ci -> Types.hb_ci_95 r = ci) /\
    (Backend.hb_ci_95 p = None ->
     forall h, Backend.hb_g_per_dl p = Some (Num h) ->
       Spec.ci_ordered r).
Proof.
  intros Hp. unfold ApiService.mapBackendToFrontend. rewrite Hp.
  eexists. split; [reflexivity |].
  unfold Spec.confidence_in_unit, Spec.ci_ordered.
  cbn [Types.confidence Types.hb_ci_95].
  pose proof (confidence_bounds p) as Hc.
  split; [exact Hc | split; [| split]].
  - destruct (parseFloat_toFixed _ 2); [exact Hc |].
    cbn [between] in *. lra.
  - intros ci ->. reflexivity.
  - intros -> h ->. cbn [or_object ToNumber fst snd].
    apply synthesized_ci_ordered. lra.
Qed.

(** What the fallback stores when the generative response parses to an
    object. *)
Lemma generative_bounds (svc : GeminiService.Service) (env : Env) (img : string)
    (k : ascii) (key : string) (t : ascii) (text : string)
    (data : GeminiService.Data) :
  GeminiService.API_KEY svc = Some (String k key) ->
  GeminiService.generateContent svc = GeminiService.CallReturns (Some (String t text)) ->
  GeminiService.JSON_parse svc (String t text) = GeminiService.ParsedObject data ->
  exists r,
    GeminiService.analyzeNailImage svc env img = Returns r /\
    Types.confidence r = GeminiService.confidence data /\
    (forall h, GeminiService.hb_estimate_g_dl data = Num h ->
       Spec.ci_ordered r).
Proof.
  intros Hk Hg Hj.
  unfold GeminiService.analyzeNailImage, GeminiService.tryAnalyze.
  rewrite Hk, Hg, Hj. eexists. split; [reflexivity |].
  split; [reflexivity |]. intros h Hh.
  unfold Spec.ci_ordered. cbn [Types.hb_ci_95 fst snd]. rewrite Hh.
  apply synthesized_ci_ordered. lra.
Qed.

(** C1, as the code has it.  On the structured path the stored confidence
    always lies in [[0.5, 0.99]], hence in [[0, 1]]; an interval the backend
    supplies is stored as it came; the interval synthesized around a
    supplied numeric estimate is ordered.  On the generative path the
    interval synthesized around a numeric estimate is ordered as well, and
    the confidence is the one of the response, stored as it came. *)
Theorem C1_interval_and_confidence :
  (forall env data img p,
     Backend.prediction data = Some p ->
     exists r,
       ApiService.mapBackendToFrontend env data img = Returns r /\
       between (1 # 2) (99 # 100) (Types.confidence r) /\
       Spec.confidence_in_unit r /\
       (forall ci, Backend.hb_ci_95 p = Some ci -> Types.hb_ci_95 r = ci) /\
       (Backend.hb_ci_95 p = None ->
        forall h, Backend.hb_g_per_dl p = Some (Num h) ->
          Spec.ci_ordered r)) /\
  (forall svc env img k key t text data,
     GeminiService.API_KEY svc = Some (String k key) ->
     GeminiService.generateContent svc
       = GeminiService.CallReturns (Some (String t text)) ->
     GeminiService.JSON_parse svc (String t text) = GeminiService.ParsedObject data ->
     exists r,
       GeminiService.analyzeNailImage svc env img = Returns r /\
       Types.confidence r = GeminiService.confidence data /\
       (forall h, GeminiService.hb_estimate_g_dl data = Num h ->
          Spec.ci_ordered r)).
Proof.
  split.
  - intros env data img p. apply structured_bounds.
  - intros svc env img k key t text data. apply generative_bounds.
Qed.

Lemma C1_interval_and_confidence_witness :
  exists r,
    ApiService.mapBackendToFrontend Examples.env0 Examples.plain_response "img"
      = Returns r /\
    between (1 # 2) (99 # 100) (Types.confidence r) /\
    Spec.confidence_in_unit r /\
    (forall ci, Backend.hb_ci_95 Examples.prediction0 = Some ci ->
       Types.hb_ci_95 r = ci) /\
    (Backend.hb_ci_95 Examples.prediction0 = None ->
     forall h, Backend.hb_g_per_dl Examples.prediction0 = Some (Num h) ->
       Spec.ci_ordered r).
Proof.
  apply (proj1 C1_interval_and_confidence Examples.env0 Examples.plain_response
           "img" Examples.prediction0).
  reflexivity.
Defined.

(** C1 as stated fails: a supplied interval is not checked, a generative
    confidence is not checked, and without an estimate both synthesized
    bounds are [NaN]. *)
Lemma C1_counterexample :
  (exists r,
     ApiService.mapBackendToFrontend Examples.env0 Examples.reversed_ci_response "img"
       = Returns r /\
     Types.hb_ci_95 r = (Num 13, Num 11) /\ ~ Spec.ci_ordered r) /\
  (exists r,
     GeminiService.analyzeNailImage Examples.overconfident_service Examples.env0 "img"
       = Returns r /\
     Types.confidence r = Num (3 # 2) /\ ~ Spec.confidence_in_unit r) /\
  (exists r,
     ApiService.mapBackendToFrontend Examples.env0 Examples.no_estimate_response "img"
       = Returns r /\
     Types.hb_ci_95 r = (NaN, NaN) /\ ~ Spec.ci_ordered r).
Proof.
  split; [| split]; eexists; (split; [reflexivity |]); (split; [reflexivity |]).
  - unfold Spec.ci_ordered. cbn. discriminate.
  - unfold Spec.confidence_in_unit. cbn. intros [_ H]. now apply H.
  - unfold Spec.ci_ordered. cbn. discriminate.
Qed.

End NormalizedBounds.

(** * Explanation list of a structured response *)

Section ExplanationList.

Lemma mappedFeatures_supplied (data : Backend.Data) :
  ApiService.mappedFeatures data
    = map ApiService.mapFeature (firstn 3 (Spec.supplied_features data)).
Proof.
  unfold ApiService.mappedFeatures, Spec.supplied_features.
  destruct (Backend.explainability data) as [e |]; [| reflexivity].
  now destruct (Backend.top_contributing_features e).
Qed.

Lemma mappedFeatures_length (data : Backend.Data) :
  length (ApiService.mappedFeatures data)
    = Nat.min 3 (length (Spec.supplied_features data)).
Proof.
  rewrite mappedFeatures_supplied, length_map. apply length_firstn.
Qed.

(** C2, as the code has it.  The placeholders stand in only for an empty
    list: with no supplied feature the result has exactly the three fixed
    placeholders, all tagged normal; with at least one it has the supplied
    features, converted, up to the third, so one feature gives one entry,
    two give two, and more than three give the first three. *)
Theorem C2_explanation_list (env : Env) (data : Backend.Data) (img : string)
    (p : Backend.Prediction) :
  Backend.prediction data = Some p ->
  exists r,
    ApiService.mapBackendToFrontend env data img = Returns r /\
    (Spec.supplied_features data = [] ->
     Spec.features_of r = ApiService.placeholders /\ length (Spec.features_of r) = 3%nat /\
     Forall (fun f => Types.direction f = Types.normal) (Spec.features_of r)) /\
    (Spec.supplied_features data <> [] ->
     Spec.features_of r
       = map ApiService.mapFeature (firstn 3 (Spec.supplied_features data)) /\
     length (Spec.features_of r) = Nat.min 3 (length (Spec.supplied_features data))) /\
    ((3 < length (Spec.supplied_features data))%nat ->
     length (Spec.features_of r) = 3%nat).
Proof.
  intros Hp. unfold ApiService.mapBackendToFrontend. rewrite Hp.
  eexists. split; [reflexivity |].
  unfold Spec.features_of. cbn [Types.explanations Types.top_contributing_features].
  pose proof (mappedFeatures_length data) as Hlen.
  pose proof (mappedFeatures_supplied data) as Hmap.
  destruct (Spec.supplied_features data) as [| f fs] eqn:E.
  - rewrite Hmap. cbn. split; [| split].
    + intros _. repeat split. repeat constructor.
    + intros H. now destruct H.
    + lia.
  - assert (Hpos : (0 <? length (ApiService.mappedFeatures data))%nat = true).
    { apply Nat.ltb_lt. rewrite Hlen. cbn [length]. lia. }
    rewrite Hpos. split; [| split].
    + discriminate.
    + intros _. split; [exact Hmap | exact Hlen].
    + intros H. rewrite Hlen. cbn [length] in *. lia.
Qed.

Lemma C2_explanation_list_witness :
  exists r,
    ApiService.mapBackendToFrontend Examples.env0 Examples.five_features_response "img"
      = Returns r /\
    (Spec.supplied_features Examples.five_features_response = [] ->
     Spec.features_of r = ApiService.placeholders /\ length (Spec.features_of r) = 3%nat /\
     Forall (fun f => Types.direction f = Types.normal) (Spec.features_of r)) /\
    (Spec.supplied_features Examples.five_features_response <> [] ->
     Spec.features_of r
       = map ApiService.mapFeature
           (firstn 3 (Spec.supplied_features Examples.five_features_response)) /\
     length (Spec.features_of r)
       = Nat.min 3 (length (Spec.supplied_features Examples.five_features_response))) /\
    ((3 < length (Spec.supplied_features Examples.five_features_response))%nat ->
     length (Spec.features_of r) = 3%nat).
Proof.
  apply (C2_explanation_list Examples.env0 Examples.five_features_response "img"
           Examples.prediction0).
  reflexivity.
Defined.

(** C2 as stated fails: one supplied feature gives a list of one entry. *)
Lemma C2_counterexample :
  exists r,
    ApiService.mapBackendToFrontend Examples.env0 Examples.one_feature_response "img"
      = Returns r /\
    length (Spec.supplied_features Examples.one_feature_response) = 1%nat /\
    length (Spec.features_of r) = 1%nat /\
    length (Spec.features_of r) <> 3%nat.
Proof.
  eexists. split; [reflexivity |]. repeat split. discriminate.
Qed.

End ExplanationList.

(** * Confidence derived from the uncertainty score *)

Section ConfidenceFromUncertainty.

Local Open Scope Q_scope.

Import JS.

Lemma round_half_away_comp (x y : Q) :
  x == y -> round_half_away x = round_half_away y.
Proof.
  intros H. unfold round_half_away.
  rewrite (Qleb_comp 0 0 (Qeq_refl 0) x y H).
  destruct (Qle_bool 0 y).
  - apply Qfloor_comp. now rewrite H.
  - f_equal. apply Qfloor_comp. now rewrite H.
Qed.

Lemma roundQ_comp (d : nat) (x y : Q) : x == y -> roundQ d x == roundQ d y.
Proof.
  intros H. unfold roundQ.
  rewrite (Qleb_comp toFixed_limit toFixed_limit (Qeq_refl _) (Qabs x) (Qabs y))
    by now rewrite H.
  destruct (Qle_bool toFixed_limit (Qabs y)); [exact H |].
  rewrite (round_half_away_comp (x * scale d) (y * scale d)); [reflexivity |].
  now rewrite H.
Qed.

(** For a supplied uncertainty other than zero the stored confidence is
    [clamp(1 - u, 0.5, 0.99)] rounded to two decimals. *)
Lemma confidence_from_uncertainty (env : Env) (data : Backend.Data) (img : string)
    (p : Backend.Prediction) (u : Q) :
  Backend.prediction data = Some p ->
  Backend.uncertainty p = Some (Num u) ->
  ~ u == 0 ->
  exists r,
    ApiService.mapBackendToFrontend env data img = Returns r /\
    is_value (Types.confidence r)
      (roundQ 2 (Spec.clamp (1 - u) (1 # 2) (99 # 100))).
Proof.
  intros Hp Hu Hnz. unfold ApiService.mapBackendToFrontend. rewrite Hp.
  eexists. split; [reflexivity |]. cbn [Types.confidence].
  unfold ApiService.confidenceOf.
  destruct (or_number_cases (Backend.uncertainty p) (1 # 10))
    as [(q & Hq & _ & ->) | ([H | [H | (q & H & Hz)]] & _)];
    try congruence.
  assert (q = u) as -> by congruence.
  cbn [sub lift2].
  destruct (Math_clamp_bounds (1 # 2) (99 # 100) (1 - u)) as (c & -> & _ & Hc);
    [lra |].
  cbn [parseFloat_toFixed is_value]. now apply roundQ_comp.
Qed.

(** C4 at an uncertainty of zero: [0 || 0.1] selects the default, so the
    stored confidence is 0.9 and not [clamp(1 - 0, 0.5, 0.99) = 0.99]. *)
Theorem C4_zero_uncertainty :
  exists r,
    ApiService.mapBackendToFrontend Examples.env0 Examples.zero_uncertainty_response
      "img" = Returns r /\
    is_value (Types.confidence r) (9 # 10) /\
    ~ is_value (Types.confidence r)
        (roundQ 2 (Spec.clamp (1 - 0) (1 # 2) (99 # 100))) /\
    roundQ 2 (Spec.clamp (1 - 0) (1 # 2) (99 # 100)) == 99 # 100.
Proof.
  eexists. split; [reflexivity |]. repeat split.
  intros H. vm_compute in H. discriminate H.
Qed.

End ConfidenceFromUncertainty.

(** * The synthetic fallback generator *)

Section MockGenerator.

Local Open Scope Q_scope.

Import JS.

Lemma Qltb_spec (a b : Q) : Qltb a b = true <-> a < b.
Proof.
  unfold Qltb. destruct (Qle_bool b a) eqn:E; cbn [negb].
  - apply Qle_bool_iff in E. split; [discriminate | lra].
  - apply Qle_bool_false in E. split; [intros _; exact E | reflexivity].
Qed.

Lemma Qltb_false (a b : Q) : Qltb a b = false <-> b <= a.
Proof.
  pose proof (Qltb_spec a b) as H. destruct (Qltb a b).
  - split; [discriminate |]. intros Hle. assert (a < b) by now apply H. lra.
  - split; [| reflexivity]. intros _.
    destruct (Qlt_le_dec a b) as [Hlt | Hle]; [| exact Hle].
    apply H in Hlt. discriminate.
Qed.

Lemma drawn_hb_range (env : Env) :
  random_ok (random_hb env) -> 9 <= Spec.drawn_hb env /\ Spec.drawn_hb env < 13.
Proof. unfold random_ok, Spec.drawn_hb. intros [H0 H1]. split; lra. Qed.

Lemma mock_estimate (env : Env) (img : string) :
  Types.hb_estimate_g_dl (GeminiService.generateMockResult env img)
    = Num (roundQ 1 (Spec.drawn_hb env)).
Proof. reflexivity. Qed.

(** The three sequential tests of the generator compute the class the
    thresholds assign to the drawn value. *)
Lemma mock_class_thresholds (env : Env) (img : string) :
  Spec.threshold_relation (Spec.drawn_hb env)
    (Types.anemia_class (GeminiService.generateMockResult env img)).
Proof.
  unfold GeminiService.generateMockResult. cbn [Types.anemia_class add sub mul lift2 lt].
  fold (Spec.drawn_hb env). unfold Spec.threshold_relation.
  destruct (Qltb (Spec.drawn_hb env) 11) eqn:E1;
  destruct (Qltb (Spec.drawn_hb env) (95 # 10)) eqn:E2;
  destruct (Qltb (Spec.drawn_hb env) 8) eqn:E3;
  repeat match goal with
         | H : Qltb _ _ = true |- _ => apply Qltb_spec in H
         | H : Qltb _ _ = false |- _ => apply Qltb_false in H
         end;
  repeat split; intros; try reflexivity; exfalso; lra.
Qed.

Lemma roundQ_le_const (d : nat) (k : Z) (c x : Q) :
  c == inject_Z k / scale d -> x <= c -> roundQ d x <= c.
Proof. intros Hc H. rewrite Hc. apply roundQ_le. now rewrite <- Hc. Qed.

Lemma roundQ_ge_const (d : nat) (k : Z) (c x : Q) :
  c == inject_Z k / scale d -> c <= x -> c <= roundQ d x.
Proof. intros Hc H. rewrite Hc. apply roundQ_ge. now rewrite <- Hc. Qed.

(** C3, as the code has it.  The class is decided on the computed value
    before it is rounded to one decimal: there is a value in [[9, 13]],
    less than a tenth away from the stored estimate, for which the
    thresholds hold as stated.  For the stored estimate itself they hold
    away from the two boundary values: above 11 Normal, strictly between
    9.5 and 11 Mild, from 8 to below 9.5 Moderate, below 8 Severe.  A
    stored 11.0 is Normal or Mild, a stored 9.5 is Mild or Moderate. *)
Theorem C3_mock_thresholds (env : Env) (img : string) :
  random_ok (random_hb env) ->
  let r := GeminiService.generateMockResult env img in
  exists hb e,
    9 <= hb /\ hb <= 13 /\
    Spec.threshold_relation hb (Types.anemia_class r) /\
    Types.hb_estimate_g_dl r = Num e /\
    hb - (1 # 10) < e /\ e < hb + (1 # 10) /\
    Spec.threshold_relation_off_boundary e (Types.anemia_class r) /\
    (e == 11 ->
     Types.anemia_class r = Types.NORMAL \/ Types.anemia_class r = Types.MILD) /\
    (e == (95 # 10) ->
     Types.anemia_class r = Types.MILD \/ Types.anemia_class r = Types.MODERATE).
Proof.
  intros Hr r. pose proof (mock_class_thresholds env img) as Ht. fold r in Ht.
  destruct (drawn_hb_range env Hr) as [Hlo Hhi].
  exists (Spec.drawn_hb env), (roundQ 1 (Spec.drawn_hb env)).
  split; [exact Hlo |]. split; [lra |]. split; [exact Ht |].
  split; [reflexivity |].
  destruct (roundQ_one_decimal (Spec.drawn_hb env)) as [Nlo Nhi].
  split; [lra |]. split; [lra |].
  destruct Ht as (Tn & Tm & To & Ts).
  set (hb := Spec.drawn_hb env) in *. set (c := Types.anemia_class r) in *.
  assert (U11 : hb <= 11 -> roundQ 1 hb <= 11)
    by (apply (roundQ_le_const 1 110); reflexivity).
  assert (L11 : 11 <= hb -> 11 <= roundQ 1 hb)
    by (apply (roundQ_ge_const 1 110); reflexivity).
  assert (U95 : hb <= 95 # 10 -> roundQ 1 hb <= 95 # 10)
    by (apply (roundQ_le_const 1 95); reflexivity).
  assert (L95 : 95 # 10 <= hb -> 95 # 10 <= roundQ 1 hb)
    by (apply (roundQ_ge_const 1 95); reflexivity).
  assert (L9 : 9 <= hb -> 9 <= roundQ 1 hb)
    by (apply (roundQ_ge_const 1 90); reflexivity).
  specialize (L9 Hlo).
  destruct (Qlt_le_dec hb 11) as [H11 | H11];
  destruct (Qlt_le_dec hb (95 # 10)) as [H95 | H95];
    try (exfalso; lra).
  - assert (Hc : c = Types.MODERATE) by (apply To; lra).
    assert (roundQ 1 hb <= 95 # 10) by (apply U95; lra).
    unfold Spec.threshold_relation_off_boundary.
    repeat split; intros; try (exfalso; lra); auto.
  - assert (Hc : c = Types.MILD) by (apply Tm; lra).
    assert (roundQ 1 hb <= 11) by (apply U11; lra).
    assert (95 # 10 <= roundQ 1 hb) by (apply L95; lra).
    unfold Spec.threshold_relation_off_boundary.
    repeat split; intros; try (exfalso; lra); auto.
  - assert (Hc : c = Types.NORMAL) by (apply Tn; lra).
    assert (11 <= roundQ 1 hb) by (apply L11; lra).
    unfold Spec.threshold_relation_off_boundary.
    repeat split; intros; try (exfalso; lra); auto.
Qed.

Lemma C3_mock_thresholds_witness :
  let r := GeminiService.generateMockResult Examples.env0 "img" in
  exists hb e,
    9 <= hb /\ hb <= 13 /\
    Spec.threshold_relation hb (Types.anemia_class r) /\
    Types.hb_estimate_g_dl r = Num e /\
    hb - (1 # 10) < e /\ e < hb + (1 # 10) /\
    Spec.threshold_relation_off_boundary e (Types.anemia_class r) /\
    (e == 11 ->
     Types.anemia_class r = Types.NORMAL \/ Types.anemia_class r = Types.MILD) /\
    (e == (95 # 10) ->
     Types.anemia_class r = Types.MILD \/ Types.anemia_class r = Types.MODERATE).
Proof.
  apply (C3_mock_thresholds Examples.env0 "img").
  unfold random_ok. cbn. split; [discriminate | reflexivity].
Defined.

(** C3 as stated fails: the draw 0.49 gives a value just below 11, which
    is classified Mild and stored as 11.0. *)
Lemma C3_counterexample :
  random_ok (random_hb Examples.env0) /\
  Types.anemia_class (GeminiService.generateMockResult Examples.env0 "img")
    = Types.MILD /\
  exists e,
    Types.hb_estimate_g_dl (GeminiService.generateMockResult Examples.env0 "img")
      = Num e /\
    e == 11 /\
    ~ Spec.threshold_relation e
        (Types.anemia_class (GeminiService.generateMockResult Examples.env0 "img")).
Proof.
  split; [split; [discriminate | reflexivity] |].
  split; [reflexivity |].
  eexists. split; [reflexivity |]. split; [reflexivity |].
  intros (Hn & _). cbn in Hn.
  assert (H : Types.MILD = Types.NORMAL) by (apply Hn; discriminate).
  discriminate H.
Qed.

(** The fallback never throws: whatever happens inside the [try] block is
    caught. *)
Lemma analyzeNailImage_returns (svc : GeminiService.Service) (env : Env)
    (img : string) :
  exists r, GeminiService.analyzeNailImage svc env img = Returns r.
Proof.
  unfold GeminiService.analyzeNailImage.
  destruct (GeminiService.API_KEY svc) as [[| k key] |]; eauto.
  destruct (GeminiService.tryAnalyze svc env img); eauto.
Qed.

(** Whenever it has to fabricate, the fallback returns the mock result. *)
Lemma analyzeNailImage_fabricates (svc : GeminiService.Service) (env : Env)
    (img : string) :
  Spec.must_fabricate svc ->
  GeminiService.analyzeNailImage svc env img
    = Returns (GeminiService.generateMockResult env img).
Proof.
  unfold Spec.must_fabricate, GeminiService.analyzeNailImage.
  intros H.
  destruct (GeminiService.API_KEY svc) as [[| k key] |]; try reflexivity.
  unfold GeminiService.tryAnalyze.
  destruct H as [H | [H | [[e H] | [H | [H | (text & H & [Hp | Hp])]]]]];
    try discriminate; rewrite H; try reflexivity;
    destruct text as [| t text]; try reflexivity; now rewrite Hp.
Qed.

(** C5.  Without a credential, or when the call or the parse of its
    response fails, the fallback returns (it never throws) the synthetic
    result: its estimate lies in [[9.0, 13.0]], its quality flags all pass
    and its explanation list has exactly three entries. *)
Theorem C5_fallback_synthetic (svc : GeminiService.Service) (env : Env)
    (img : string) :
  random_ok (random_hb env) ->
  Spec.must_fabricate svc ->
  exists r,
    GeminiService.analyzeNailImage svc env img = Returns r /\
    r = GeminiService.generateMockResult env img /\
    between 9 13 (Types.hb_estimate_g_dl r) /\
    Spec.all_flags_passing (Types.quality_flags r) /\
    length (Spec.features_of r) = 3%nat.
Proof.
  intros Hr Hf. eexists. split; [now apply analyzeNailImage_fabricates |].
  split; [reflexivity |]. rewrite mock_estimate. cbn [between].
  destruct (drawn_hb_range env Hr) as [Hlo Hhi].
  split; [| split; [repeat split | reflexivity]].
  apply (roundQ_between 1 90 130); [reflexivity | reflexivity | lra].
Qed.

Lemma C5_fallback_synthetic_witness :
  exists r,
    GeminiService.analyzeNailImage Examples.keyless_service Examples.env0 "img"
      = Returns r /\
    r = GeminiService.generateMockResult Examples.env0 "img" /\
    between 9 13 (Types.hb_estimate_g_dl r) /\
    Spec.all_flags_passing (Types.quality_flags r) /\
    length (Spec.features_of r) = 3%nat.
Proof.
  apply (C5_fallback_synthetic Examples.keyless_service Examples.env0 "img").
  - unfold random_ok. cbn. split; [discriminate | reflexivity].
  - left. reflexivity.
Defined.

End MockGenerator.

(** * The store: invariants and compositions *)

Section StoreCompositions.

Context {Scan : Type}.
Implicit Types st : Storage.Store Scan.

Import Storage.

Lemma find_app_none {A} (f : A -> bool) (l k : list A) :
  List.find f l = None -> List.find f (l ++ k) = List.find f k.
Proof.
  induction l as [| x l IH]; [reflexivity |].
  cbn [List.find app]. destruct (f x); [discriminate | exact IH].
Qed.

Lemma register_success (env : Env) (email password : string) (age : Z)
    (gender : User.Gender) (termsAccepted : bool) st :
  (forall u, In u (Spec.rows st) -> User.email u <> email) ->
  List.find (fun u => String.eqb (User.email u) email) (Spec.rows st) = None.
Proof.
  intros Hfree. destruct (List.find _ (Spec.rows st)) as [u |] eqn:F; [| reflexivity].
  apply find_some in F as [Hin Heq]. apply String.eqb_eq in Heq.
  now destruct (Hfree u Hin).
Qed.

(** X1.  [register] keeps emails pairwise distinct across the users table,
    whether it succeeds or fails. *)
Theorem register_keeps_emails_unique (env : Env) (email password : string)
    (age : Z) (gender : User.Gender) (termsAccepted : bool) st :
  NoDup (map User.email (Spec.rows st)) ->
  NoDup (map User.email
           (Spec.rows (snd (register env email password age gender termsAccepted st)))).
Proof.
  intros Hnodup. unfold register. rewrite rows_or_object. unfold find_user.
  destruct (List.find _ (Spec.rows st)) as [u |] eqn:F; cbn [snd]; [exact Hnodup |].
  unfold Spec.rows at 1. cbn [users_table]. rewrite map_app. cbn [map User.email].
  apply NoDup_app. repeat split; [exact Hnodup | | apply NoDup_singleton].
  intros x Hx Hx'. apply list_elem_of_In in Hx, Hx'.
  destruct Hx' as [<- | []]. apply in_map_iff in Hx as (u & Hu & Hin).
  apply (find_none _ _ F) in Hin. apply String.eqb_neq in Hin. contradiction.
Qed.

(** X2.  After a successful registration, registering the same email again fails
    with the duplicate-email error, whatever the other fields are, and
    changes nothing. *)
Theorem register_twice_fails (env env' : Env) (email password password' : string)
    (age age' : Z) (gender gender' : User.Gender) (terms terms' : bool) st :
  (forall u, In u (Spec.rows st) -> User.email u <> email) ->
  let st1 := snd (register env email password age gender terms st) in
  register env' email password' age' gender' terms' st1
    = (Throws DuplicateEmail, st1).
Proof.
  intros Hfree. cbv zeta. unfold register at 2 3. rewrite rows_or_object.
  unfold find_user. rewrite (register_success env email password age gender terms st Hfree).
  cbn [snd]. unfold register. rewrite rows_or_object. unfold find_user.
  unfold Spec.rows at 1. cbn [users_table].
  rewrite find_app_none
    by exact (register_success env email password age gender terms st Hfree).
  cbn [List.find User.email]. now rewrite String.eqb_refl.
Qed.

(** X3.  A registered user can sign out and sign in again with the same email
    and credential: [login] returns the very user [register] returned and
    re-establishes the state [register] left. *)
Theorem register_logout_login (env : Env) (email password : string) (age : Z)
    (gender : User.Gender) (terms : bool) st :
  (forall u, In u (Spec.rows st) -> User.email u <> email) ->
  let out := register env email password age gender terms st in
  login email password (logout (snd out)) = (fst out, snd out).
Proof.
  intros Hfree. cbv zeta. unfold register. rewrite rows_or_object. unfold find_user.
  rewrite (register_success env email password age gender terms st Hfree).
  cbn [fst snd]. unfold login, logout. cbn [users_table]. unfold find_user.
  cbn [JS.or_object].
  rewrite find_app_none.
  - cbn [List.find User.email]. unfold password_is. cbn [User.password].
    now rewrite !String.eqb_refl.
  - destruct (List.find _ (Spec.rows st)) as [u |] eqn:F; [| reflexivity].
    apply find_some in F as [Hin Hm]. apply andb_true_iff in Hm as [Hm _].
    apply String.eqb_eq in Hm. now destruct (Hfree u Hin).
Qed.

(** X4.  [logout] clears the session and nothing else; it is idempotent, and
    whether a later [login] succeeds does not depend on it. *)
Theorem logout_clears_session_only (email password : string) st :
  getCurrentUser (logout st) = None /\
  logout (logout st) = logout st /\
  users_table (logout st) = users_table st /\
  history_tables (logout st) = history_tables st /\
  fst (login email password (logout st)) = fst (login email password st).
Proof.
  repeat split. unfold login, logout. cbn [users_table].
  now destruct (find_user _ _).
Qed.

Lemma replace_ids (u : User.User) (users : list User.User) :
  map User.id
    (map (fun x => if String.eqb (User.id x) (User.id u) then u else x) users)
  = map User.id users.
Proof.
  induction users as [| x users IH]; [reflexivity |].
  cbn [map]. rewrite IH. f_equal.
  destruct (String.eqb_spec (User.id x) (User.id u)); congruence.
Qed.

Lemma replace_twice (u : User.User) (users : list User.User) :
  let f := fun x => if String.eqb (User.id x) (User.id u) then u else x in
  map f (map f users) = map f users.
Proof.
  cbv zeta. rewrite map_map. apply map_ext. intros x.
  destruct (String.eqb_spec (User.id x) (User.id u)) as [_ | Hne].
  - now rewrite String.eqb_refl.
  - apply String.eqb_neq in Hne. now rewrite Hne.
Qed.

Lemma updateUser_session (u : User.User) st :
  getCurrentUser (updateUser u st) = Some u.
Proof.
  unfold updateUser. cbn [users_table current_session].
  now destruct (users_table st).
Qed.

Lemma updateUser_row_cases (u : User.User) st (x : User.User) :
  In x (Spec.rows (updateUser u st)) ->
  x = u \/ (In x (Spec.rows st) /\ User.id x <> User.id u).
Proof.
  unfold updateUser, Spec.rows. cbn [users_table current_session history_tables].
  destruct (users_table st) as [users |]; cbn [users_table]; [| intros []].
  intros Hx. apply in_map_iff in Hx as (y & Hy & Hin).
  destruct (String.eqb_spec (User.id y) (User.id u)) as [_ | Hne].
  - left. congruence.
  - right. subst y. now split.
Qed.

(** X5.  [updateUser] never adds, removes or renumbers accounts: the identifiers
    of the rows stay as they were, in order.  A row of the new table is the
    given user or an old row with another identifier; the given user is in
    the new table as soon as some row had its identifier; and applying the
    same update twice is the same as applying it once. *)
Theorem updateUser_rows (u : User.User) st :
  map User.id (Spec.rows (updateUser u st)) = map User.id (Spec.rows st) /\
  (forall x, In x (Spec.rows (updateUser u st)) ->
     x = u \/ (In x (Spec.rows st) /\ User.id x <> User.id u)) /\
  ((exists x, In x (Spec.rows st) /\ User.id x = User.id u) ->
   In u (Spec.rows (updateUser u st))) /\
  updateUser u (updateUser u st) = updateUser u st.
Proof.
  unfold updateUser, Spec.rows. cbn [users_table current_session history_tables].
  destruct (users_table st) as [users |]; cbn [users_table].
  - split; [apply replace_ids | split; [| split]].
    + intros x Hx. apply in_map_iff in Hx as (y & Hy & Hin).
      destruct (String.eqb_spec (User.id y) (User.id u)) as [_ | Hne].
      * left. congruence.
      * right. subst y. now split.
    + intros (x & Hin & Hid). apply in_map_iff. exists x. split; [| exact Hin].
      apply String.eqb_eq in Hid. now rewrite Hid.
    + cbn [current_session history_tables]. f_equal. f_equal. apply replace_twice.
  - repeat split; try reflexivity.
    + intros x [].
    + intros (x & [] & _).
Qed.

(** X6.  Saving a scan touches one history only: the users table, the session
    and every other user's history stay as they were, and the saved scan is
    the last entry of the user's own history. *)
Theorem saveScan_frame (userId : string) (r : Scan) st :
  users_table (saveScan userId r st) = users_table st /\
  getCurrentUser (saveScan userId r st) = getCurrentUser st /\
  (forall other, other <> userId ->
     getUserHistory other (saveScan userId r st) = getUserHistory other st) /\
  last (getUserHistory userId (saveScan userId r st)) = Some r.
Proof.
  repeat split.
  - intros other Hne. now apply getUserHistory_saveScan_other.
  - rewrite getUserHistory_saveScan. apply last_snoc.
Qed.

(** X7.  Histories are append-only: saving any sequence of scans for a user
    extends that user's history by exactly that sequence, in order, so the
    history read earlier is a prefix of every history read later. *)
Theorem saveScan_sequence (userId : string) (rs : list Scan) st :
  let st' := fold_left (fun s r => saveScan userId r s) rs st in
  getUserHistory userId st' = getUserHistory userId st ++ rs /\
  getUserHistory userId st `prefix_of` getUserHistory userId st' /\
  length (getUserHistory userId st')
    = (length (getUserHistory userId st) + length rs)%nat.
Proof.
  cbv zeta.
  assert (H : getUserHistory userId (fold_left (fun s r => saveScan userId r s) rs st)
              = getUserHistory userId st ++ rs).
  { revert st. induction rs as [| r rs IH]; intros st; cbn [fold_left].
    - now rewrite app_nil_r.
    - rewrite IH, getUserHistory_saveScan. now rewrite <- app_assoc. }
  rewrite H. split; [reflexivity | split].
  - now exists rs.
  - apply length_app.
Qed.

(** X8.  The three kinds of [localStorage] key never coincide, and two users
    share a history key only if they are the same user. *)
Theorem storage_keys_distinct (a b : string) :
  history_key a <> USERS_TABLE /\
  history_key a <> CURRENT_SESSION_KEY /\
  USERS_TABLE <> CURRENT_SESSION_KEY /\
  (history_key a = history_key b <-> a = b).
Proof.
  split; [apply history_key_not_users | split; [apply history_key_not_session |]].
  split; [apply users_not_session |].
  split; [apply history_key_inj | now intros ->].
Qed.

End StoreCompositions.

(** * The identifier generator *)

Section UuidFacts.

Import Uuid.

Lemma nibble_range (r : Q) :
  random_ok r -> (0 <= ToInt32 (r * 16) < 16)%Z.
Proof.
  intros [H0 H1]. unfold ToInt32, truncate.
  assert (Hq : (0 <= r * 16)%Q) by lra.
  apply Qle_bool_iff in Hq. rewrite Hq.
  assert (Hlo : (0 <= Qfloor (r * 16))%Z)
    by (apply (Qfloor_ge_Z 0); unfold inject_Z; lra).
  assert (Hhi : (Qfloor (r * 16) < 16)%Z).
  { apply Z.lt_nge. intros Hge. rewrite Zle_Qle in Hge.
    pose proof (Qfloor_le (r * 16)) as Hf.
    change (inject_Z 16) with 16%Q in Hge. lra. }
  rewrite Z.mod_small by lia. lia.
Qed.

Lemma toString16_nibble (v : Z) :
  (0 <= v < 16)%Z -> toString16 v = String (hex_digit v) EmptyString.
Proof.
  intros Hv. unfold toString16.
  destruct (Z.ltb_spec v 0) as [Hneg | _]; [lia |].
  cbn [hex_digits]. destruct (Z.ltb_spec v 16) as [_ | Hbig]; [| lia].
  now rewrite Z.mod_small by lia.
Qed.

Lemma nibble_cases (v : Z) :
  (0 <= v < 16)%Z ->
  (v = 0 \/ v = 1 \/ v = 2 \/ v = 3 \/ v = 4 \/ v = 5 \/ v = 6 \/ v = 7 \/
   v = 8 \/ v = 9 \/ v = 10 \/ v = 11 \/ v = 12 \/ v = 13 \/ v = 14 \/ v = 15)%Z.
Proof. lia. Qed.

Lemma hex_digit_is_hex (v : Z) :
  (0 <= v < 16)%Z -> is_hex (hex_digit v) = true.
Proof.
  intros Hv. apply nibble_cases in Hv.
  repeat (destruct Hv as [-> | Hv]; [reflexivity |]). now subst.
Qed.

Lemma variant_digit (r : Z) :
  (0 <= r < 16)%Z ->
  (8 <= Z.lor (Z.land r 3) 8 < 12)%Z /\
  is_variant (hex_digit (Z.lor (Z.land r 3) 8)) = true.
Proof.
  intros Hr. apply nibble_cases in Hr.
  repeat (destruct Hr as [-> | Hr];
          [split; [split; [vm_compute; discriminate | reflexivity] | reflexivity] |]).
  subst. split; [split; [vm_compute; discriminate | reflexivity] | reflexivity].
Qed.

Lemma replace_xy_shape (s : string) (random : nat -> Q) (calls : nat) :
  (forall i, random_ok (random i)) ->
  plain s = true ->
  has_shape (shape_of s) (replace_xy s random calls) = true.
Proof.
  intros Hr. revert calls. induction s as [| c rest IH]; intros calls Hp; [reflexivity |].
  cbn [plain] in Hp. apply andb_true_iff in Hp as [Hp Hrest].
  apply andb_true_iff in Hp as [Hh Hv].
  apply negb_true_iff in Hh, Hv.
  pose proof (nibble_range (random calls) (Hr calls)) as Hn.
  cbn [replace_xy shape_of].
  destruct (Ascii.eqb c "x") eqn:Ex; cbn [orb].
  - rewrite toString16_nibble by exact Hn. rewrite append_cons, append_nil.
    cbn [has_shape]. rewrite (IH (S calls) Hrest), andb_true_r.
    unfold fits. cbn. now apply hex_digit_is_hex.
  - destruct (Ascii.eqb c "y") eqn:Ey.
    + destruct (variant_digit _ Hn) as [Hrange Hvar].
      rewrite toString16_nibble by lia. rewrite append_cons, append_nil.
      cbn [has_shape]. rewrite (IH (S calls) Hrest), andb_true_r.
      unfold fits. cbn. exact Hvar.
    + cbn [has_shape]. rewrite (IH calls Hrest), andb_true_r.
      unfold fits. rewrite Hh, Hv. apply Ascii.eqb_refl.
Qed.

Lemma has_shape_length (shape s : string) :
  has_shape shape s = true -> String.length s = String.length shape.
Proof.
  revert s. induction shape as [| p shape IH]; intros [| c s] H;
    try discriminate; [reflexivity |].
  cbn [has_shape] in H. apply andb_true_iff in H as [_ H].
  cbn [String.length]. now rewrite (IH s H).
Qed.

Lemma has_shape_get (shape s : string) (i : nat) (p : ascii) :
  has_shape shape s = true -> String.get i shape = Some p ->
  exists c, String.get i s = Some c /\ fits p c = true.
Proof.
  revert s i. induction shape as [| q shape IH]; intros [| c s] i H Hp;
    try discriminate.
  cbn [has_shape] in H. apply andb_true_iff in H as [Hc H].
  destruct i as [| i]; cbn [String.get] in *.
  - inversion Hp; subst. now exists c.
  - now apply (IH s i).
Qed.

Lemma fits_literal (p c : ascii) :
  Ascii.eqb p "h" = false -> Ascii.eqb p "v" = false -> fits p c = true -> p = c.
Proof.
  intros Hh Hv. unfold fits. rewrite Hh, Hv. apply Ascii.eqb_eq.
Qed.

Lemma shape_template : shape_of template = v4_shape.
Proof. vm_compute. reflexivity. Qed.

Lemma plain_template : plain template = true.
Proof. vm_compute. reflexivity. Qed.

Lemma v4_shape_length : String.length v4_shape = 36%nat.
Proof. vm_compute. reflexivity. Qed.

Lemma v4_shape_14 : String.get 14 v4_shape = Some "4"%char.
Proof. vm_compute. reflexivity. Qed.

Lemma v4_shape_19 : String.get 19 v4_shape = Some "v"%char.
Proof. vm_compute. reflexivity. Qed.

(** X9.  Where [crypto.randomUUID] is missing, the identifier built from
    [Math.random()] draws is always a well-formed version-4 UUID: 36
    characters, hyphens after 8, 12, 16 and 20 digits, the version digit 4,
    a variant digit among 8, 9, a, b, and lower-case hexadecimal digits
    everywhere else. *)
Theorem generateUUID_fallback_is_v4 (random : nat -> Q) :
  (forall i, random_ok (random i)) ->
  is_uuid_v4 (generateUUID None random) = true /\
  String.length (generateUUID None random) = 36%nat /\
  String.get 14 (generateUUID None random) = Some "4"%char /\
  (exists c, String.get 19 (generateUUID None random) = Some c /\ is_variant c = true).
Proof.
  intros Hr. unfold is_uuid_v4.
  assert (H : has_shape v4_shape (generateUUID None random) = true).
  { rewrite <- shape_template. unfold generateUUID.
    apply replace_xy_shape; [exact Hr | exact plain_template]. }
  split; [exact H | split; [| split]].
  - rewrite (has_shape_length _ _ H). exact v4_shape_length.
  - destruct (has_shape_get _ _ 14 "4" H v4_shape_14) as (c & Hc & Hf).
    rewrite Hc. f_equal. symmetry. now apply (fits_literal "4" c).
  - destruct (has_shape_get _ _ 19 "v" H v4_shape_19) as (c & Hc & Hf).
    exists c. split; [exact Hc | exact Hf].
Qed.

Lemma generateUUID_fallback_is_v4_witness :
  is_uuid_v4 (generateUUID None (fun _ => 1 # 2)) = true /\
  String.length (generateUUID None (fun _ => 1 # 2)) = 36%nat /\
  String.get 14 (generateUUID None (fun _ => 1 # 2)) = Some "4"%char /\
  (exists c, String.get 19 (generateUUID None (fun _ => 1 # 2)) = Some c /\
             is_variant c = true).
Proof.
  apply (generateUUID_fallback_is_v4 (fun _ => 1 # 2)).
  intros _. split; [discriminate | reflexivity].
Defined.

End UuidFacts.

(** * The request to the structured backend *)

Section Request.

Import ApiCall.

(** X10.  The request is fulfilled exactly when the image decodes, the backend
    answers with a 2xx status and an object, and the mapping of that
    object returns; the result is then the mapped one.  In particular no
    result ever comes out of a failed request. *)
Theorem analyzeNailImage_fulfilled_iff (net : Network) (env : Env) (img : string)
    (r : Types.AnalysisResult) :
  analyzeNailImage net env img = Fulfilled r <->
  atob_throws net (split_comma_1 img) = None /\
  exists response detail data,
    fetch net = FetchResolves response /\
    ok response = true /\
    body response = BodyObject detail data /\
    ApiService.mapBackendToFrontend env data img = Returns r.
Proof.
  unfold analyzeNailImage, tryAnalyze. split.
  - destruct (atob_throws net (split_comma_1 img)) as [[n m |] |].
    + destruct (JS.includes m "hand"); discriminate.
    + discriminate.
    + destruct (fetch net) as [[n m |] | response].
      * destruct (JS.includes m "hand"); discriminate.
      * discriminate.
      * destruct (ok response) eqn:Hok; cbn [negb];
          destruct (body response) as [m | | detail data] eqn:Hb;
          try (destruct (JS.includes _ "hand"); discriminate).
        -- destruct (ApiService.mapBackendToFrontend env data img) as [r' | e] eqn:Hm.
           ++ intros H. inversion H; subst. split; [reflexivity |].
              now exists response, detail, data.
           ++ destruct (JS.includes _ "hand"); discriminate.
        -- destruct (status response =? 400)%Z;
             destruct (JS.includes _ "hand"); discriminate.
  - intros (Ha & response & detail & data & Hf & Hok & Hb & Hm).
    now rewrite Ha, Hf, Hok, Hb, Hm.
Qed.

Lemma failed_request_rejected (net : Network) (env : Env) (img : string)
    (response : Response) (detail : option string) (data : Backend.Data) :
  atob_throws net (split_comma_1 img) = None ->
  fetch net = FetchResolves response ->
  ok response = false ->
  body response = BodyObject detail data ->
  analyzeNailImage net env img =
    Rejected
      (ErrorObject "Error"
         (JS.or_string detail
            (if (status response =? 400)%Z then "Validation failed"
             else "Analysis failed"))).
Proof.
  intros Ha Hf Hok Hb. unfold analyzeNailImage, tryAnalyze.
  rewrite Ha, Hf, Hok, Hb. cbn [negb].
  destruct (status response =? 400)%Z; now destruct (JS.includes _ "hand").
Qed.

(** X11.  A failed request with a JSON object as body is rejected with a plain
    [Error] whose message is the body's [detail] when it has one, and
    otherwise "Validation failed" for status 400 and "Analysis failed" for
    every other status. *)
Theorem analyzeNailImage_http_error (net : Network) (env : Env) (img : string)
    (response : Response) (detail : option string) (data : Backend.Data) :
  atob_throws net (split_comma_1 img) = None ->
  fetch net = FetchResolves response ->
  ok response = false ->
  body response = BodyObject detail data ->
  analyzeNailImage net env img =
    Rejected
      (ErrorObject "Error"
         (JS.or_string detail
            (if (status response =? 400)%Z then "Validation failed"
             else "Analysis failed"))).
Proof. apply failed_request_rejected. Qed.

(** X12.  Whatever is thrown inside the request reaches the caller as an [Error]
    object carrying the same message, whether or not the message mentions
    "hand"; a thrown value that is not an [Error] arrives as an [Error]
    saying "Failed to analyze image". *)
Theorem analyzeNailImage_rejection_message (net : Network) (env : Env)
    (img : string) (e : thrown) :
  tryAnalyze net env img = Threw e ->
  exists name,
    analyzeNailImage net env img
      = Rejected (ErrorObject name (message_of e "Failed to analyze image")) /\
    (name = "Error" \/ e = ErrorObject name (message_of e "Failed to analyze image")).
Proof.
  intros H. unfold analyzeNailImage. rewrite H.
  destruct e as [n m |]; cbn [message_of].
  - destruct (JS.includes m "hand").
    + exists n. split; [reflexivity | now right].
    + exists "Error". split; [reflexivity | now left].
  - exists "Error". split; [reflexivity | now left].
Qed.

End Request.

Lemma analyzeNailImage_http_error_witness :
  ApiCall.analyzeNailImage MoreExamples.no_hand_network Examples.env0
    MoreExamples.image
  = ApiCall.Rejected (ApiCall.ErrorObject "Error" "no hand detected").
Proof.
  apply (analyzeNailImage_http_error MoreExamples.no_hand_network Examples.env0
           MoreExamples.image MoreExamples.no_hand_response
           (Some "no hand detected") Examples.plain_response);
    reflexivity.
Defined.

Lemma analyzeNailImage_rejection_message_witness :
  exists name,
    ApiCall.analyzeNailImage MoreExamples.no_hand_network Examples.env0
      MoreExamples.image
    = ApiCall.Rejected (ApiCall.ErrorObject name "no hand detected") /\
    (name = "Error" \/
     ApiCall.ErrorObject "Error" "no hand detected"
     = ApiCall.ErrorObject name "no hand detected").
Proof.
  apply (analyzeNailImage_rejection_message MoreExamples.no_hand_network
           Examples.env0 MoreExamples.image
           (ApiCall.ErrorObject "Error" "no hand detected")).
  reflexivity.
Defined.

(** * The controller *)

Section Controller.

Import System.

(** X13.  A completed scan of a signed-in user is persisted as the last entry of
    that user's stored history, appended to the history shown, selected,
    and displayed; it is then also the latest result of the home page. *)
Theorem handleScanComplete_signed_in (r : Types.AnalysisResult) (u : User.User)
    (st : App.State) (store : App.Store) :
  App.user st = Some u ->
  let (st', store') := App.handleScanComplete r st store in
  Storage.getUserHistory (User.id u) store'
    = Storage.getUserHistory (User.id u) store ++ [r] /\
  App.history st' = App.history st ++ [r] /\
  App.selectedResult st' = Some r /\
  App.currentView st' = App.RESULT /\
  App.lastResult st' = Some r /\
  App.user st' = Some u /\
  Storage.users_table store' = Storage.users_table store /\
  Storage.getCurrentUser store' = Storage.getCurrentUser store.
Proof.
  intros Hu. unfold App.handleScanComplete. rewrite Hu.
  split; [apply getUserHistory_saveScan |].
  repeat split; try assumption.
  unfold App.lastResult. cbn [App.history].
  rewrite length_app. cbn [length].
  replace (length (App.history st) + 1 - 1)%nat with (length (App.history st)) by lia.
  destruct (Nat.ltb_spec 0 (length (App.history st) + 1)) as [_ | H]; [| lia].
  rewrite lookup_app_r by lia. now rewrite Nat.sub_diag.
Qed.

(** Without a signed-in user a completed scan is dropped: neither the
    cells of the application nor the store change. *)
Lemma handleScanComplete_signed_out (r : Types.AnalysisResult)
    (st : App.State) (store : App.Store) :
  App.user st = None ->
  App.handleScanComplete r st store = (st, store).
Proof.
  intros Hu. unfold App.handleScanComplete. now rewrite Hu.
Qed.

(** X15.  A rejected analysis persists nothing: on a failed request with a JSON
    object as body the scan page shows the body's [detail] (or the default
    message of the status), and the application cells and the store stay
    as they were. *)
Theorem handleAnalyze_failure (net : ApiCall.Network) (env : Env)
    (scan : Scan.State) (st : App.State) (store : App.Store)
    (c : ascii) (img : string) (response : ApiCall.Response)
    (detail : option string) (data : Backend.Data) :
  Scan.capturedImage scan = Some (String c img) ->
  ApiCall.atob_throws net (ApiCall.split_comma_1 (String c img)) = None ->
  ApiCall.fetch net = ApiCall.FetchResolves response ->
  ApiCall.ok response = false ->
  ApiCall.body response = ApiCall.BodyObject detail data ->
  Scan.handleAnalyze net env scan st store =
    ({| Scan.capturedImage := Some (String c img);
        Scan.isProcessing := false;
        Scan.error :=
          Some (JS.or_string detail
                  (if (ApiCall.status response =? 400)%Z then "Validation failed"
                   else "Analysis failed")) |},
     st, store).
Proof.
  intros Hc Ha Hf Hok Hb. unfold Scan.handleAnalyze. rewrite Hc.
  now rewrite (failed_request_rejected net env (String c img) response detail data
                 Ha Hf Hok Hb).
Qed.

(** X16.  The page wired to the generative fallback never shows an error: with
    an image captured it always hands a result to the controller. *)
Theorem handleAnalyzeFallback_delivers (svc : GeminiService.Service) (env : Env)
    (scan : Scan.State) (st : App.State) (store : App.Store)
    (c : ascii) (img : string) :
  Scan.capturedImage scan = Some (String c img) ->
  exists r,
    GeminiService.analyzeNailImage svc env (String c img) = Returns r /\
    Scan.error (fst (fst (Scan.handleAnalyzeFallback svc env scan st store))) = None /\
    (snd (fst (Scan.handleAnalyzeFallback svc env scan st store)),
     snd (Scan.handleAnalyzeFallback svc env scan st store))
    = App.handleScanComplete r st store.
Proof.
  intros Hc. destruct (analyzeNailImage_returns svc env (String c img)) as [r Hr].
  exists r. split; [exact Hr |].
  unfold Scan.handleAnalyzeFallback. rewrite Hc, Hr.
  now destruct (App.handleScanComplete r st store).
Qed.

(** X17.  Signing out on the profile page clears the session in the store and
    the cells of the application, so that a reload finds no user; the
    accounts and the stored histories survive. *)
Theorem profile_logout_then_reload (st : App.State) (store : App.Store) :
  let (st', store') := Profile.handleLogout st store in
  App.user st' = None /\
  App.history st' = [] /\
  App.selectedResult st' = None /\
  App.currentView st' = App.HOME /\
  App.user (App.onMount App.initial store') = None /\
  Storage.users_table store' = Storage.users_table store /\
  Storage.history_tables store' = Storage.history_tables store.
Proof. cbn. repeat split. Qed.

(** A reload restores exactly the session the store holds: the user is the
    stored session user and the history shown is that user's stored
    history; without a stored session there is no user and no history. *)
Lemma onMount_restores_session (store : App.Store) :
  let st := App.onMount App.initial store in
  App.user st = Storage.getCurrentUser store /\
  App.isLoadingAuth st = false /\
  App.history st =
    match Storage.getCurrentUser store with
    | Some u => Storage.getUserHistory (User.id u) store
    | None => []
    end.
Proof.
  cbv zeta. unfold App.onMount.
  now destruct (Storage.getCurrentUser store).
Qed.

(** X19.  Toggling data sharing writes the same profile to the application
    cell, the session and the matching rows of the users table; the flag
    becomes the opposite of what it was (an absent flag counts as off), and
    identifier, email, password, age, gender, accepted terms and creation
    time stay as they were.  Toggling twice restores the flag, again with
    every other field as it was (an absent flag comes back as an explicit
    off). *)
Theorem toggleShareData_twice (u : User.User) (st : App.State) (store : App.Store) :
  let (st1, store1) := Profile.toggleShareData u st store in
  exists u1,
    App.user st1 = Some u1 /\
    Storage.getCurrentUser store1 = Some u1 /\
    shares u1 = negb (shares u) /\
    User.shareData u1 = Some (negb (shares u)) /\
    User.id u1 = User.id u /\ User.email u1 = User.email u /\
    User.password u1 = User.password u /\
    User.age u1 = User.age u /\ User.gender u1 = User.gender u /\
    User.termsAccepted u1 = User.termsAccepted u /\
    User.createdAt u1 = User.createdAt u /\
    (forall x, In x (Spec.rows store1) -> User.id x = User.id u -> x = u1) /\
    let (st2, store2) := Profile.toggleShareData u1 st1 store1 in
    exists u2,
      App.user st2 = Some u2 /\
      Storage.getCurrentUser store2 = Some u2 /\
      User.shareData u2 = Some (shares u) /\
      User.id u2 = User.id u /\ User.email u2 = User.email u /\
      User.password u2 = User.password u /\
      User.age u2 = User.age u /\ User.gender u2 = User.gender u /\
      User.termsAccepted u2 = User.termsAccepted u /\
      User.createdAt u2 = User.createdAt u /\
      (forall b, User.shareData u = Some b -> u2 = u).
Proof.
  unfold Profile.toggleShareData. eexists. split; [reflexivity |].
  split; [apply updateUser_session |].
  split; [unfold shares, Profile.not_shareData; cbn [User.shareData];
          now destruct (User.shareData u) as [[|] |] |].
  split; [unfold shares, Profile.not_shareData; cbn [User.shareData];
          now destruct (User.shareData u) as [[|] |] |].
  repeat (split; [reflexivity |]).
  split.
  - intros x Hx Hid.
    destruct (updateUser_row_cases _ _ x Hx) as [-> | [_ Hne]]; [reflexivity |].
    cbn [User.id] in Hne. contradiction.
  - eexists. split; [reflexivity |]. split; [apply updateUser_session |].
    cbn [User.shareData]. split.
    + unfold shares, Profile.not_shareData. cbn [User.shareData].
      now destruct (User.shareData u) as [[|] |].
    + repeat (split; [reflexivity |]). intros b Hb. destruct u as [i e p a g t c s]. cbn in *. subst s.
      unfold Profile.not_shareData. cbn. now rewrite negb_involutive.
Qed.

End Controller.

(** * Further facts about the two normalizations *)

Section MoreNormalization.

Local Open Scope Q_scope.

Import JS.

Lemma le_true (a b : Q) : a <= b -> le (Num a) (Num b) = true.
Proof. intros H. cbn [le]. now apply Qle_bool_iff. Qed.

(** X20.  When the backend supplies a non-zero numeric estimate and no interval,
    the stored estimate is a number less than a tenth away from it and
    lies inside the synthesized interval. *)
Theorem structured_estimate_in_interval (env : Env) (data : Backend.Data)
    (img : string) (p : Backend.Prediction) (h : Q) :
  Backend.prediction data = Some p ->
  Backend.hb_ci_95 p = None ->
  Backend.hb_g_per_dl p = Some (Num h) ->
  ~ h == 0 ->
  exists r,
    ApiService.mapBackendToFrontend env data img = Returns r /\
    (exists e,
       Types.hb_estimate_g_dl r = Num e /\ h - (1 # 10) < e /\ e < h + (1 # 10)) /\
    le (fst (Types.hb_ci_95 r)) (Types.hb_estimate_g_dl r) = true /\
    le (Types.hb_estimate_g_dl r) (snd (Types.hb_ci_95 r)) = true.
Proof.
  intros Hp Hci Hh Hnz. unfold ApiService.mapBackendToFrontend. rewrite Hp.
  eexists. split; [reflexivity |].
  cbn [Types.hb_estimate_g_dl Types.hb_ci_95]. rewrite Hci, Hh.
  cbn [or_object or_number truthy ToNumber fst snd sub add lift2 parseFloat_toFixed].
  assert (Ht : Qeq_bool h 0 = false).
  { destruct (Qeq_bool h 0) eqn:E; [| reflexivity].
    apply Qeq_bool_iff in E. contradiction. }
  rewrite Ht. cbn [negb parseFloat_toFixed].
  split; [| split; apply le_true, roundQ_mono; lra].
  exists (roundQ 1 h). split; [reflexivity |].
  destruct (roundQ_one_decimal h) as [Hlo Hhi]. split; lra.
Qed.

(** X21.  A supplied estimate of zero counts as absent for the estimate, which
    becomes 12.0, but not for the interval, which is synthesized around
    zero: the stored estimate is then above the stored upper bound. *)
Theorem structured_zero_estimate (env : Env) (data : Backend.Data)
    (img : string) (p : Backend.Prediction) (h : Q) :
  Backend.prediction data = Some p ->
  Backend.hb_ci_95 p = None ->
  Backend.hb_g_per_dl p = Some (Num h) ->
  h == 0 ->
  exists r,
    ApiService.mapBackendToFrontend env data img = Returns r /\
    is_value (Types.hb_estimate_g_dl r) 12 /\
    is_value (fst (Types.hb_ci_95 r)) (- (9 # 10)) /\
    is_value (snd (Types.hb_ci_95 r)) (9 # 10) /\
    le (Types.hb_estimate_g_dl r) (snd (Types.hb_ci_95 r)) = false.
Proof.
  intros Hp Hci Hh Hz. unfold ApiService.mapBackendToFrontend. rewrite Hp.
  eexists. split; [reflexivity |].
  cbn [Types.hb_estimate_g_dl Types.hb_ci_95]. rewrite Hci, Hh.
  cbn [or_object or_number truthy ToNumber fst snd sub add lift2 parseFloat_toFixed].
  assert (Ht : Qeq_bool h 0 = true) by now apply Qeq_bool_iff.
  rewrite Ht. cbn [negb parseFloat_toFixed is_value le].
  assert (Elo : roundQ 1 (h - (9 # 10)) == - (9 # 10)).
  { rewrite (roundQ_comp 1 (h - (9 # 10)) (- (9 # 10))) by (rewrite Hz; reflexivity).
    reflexivity. }
  assert (Ehi : roundQ 1 (h + (9 # 10)) == 9 # 10).
  { rewrite (roundQ_comp 1 (h + (9 # 10)) (9 # 10)) by (rewrite Hz; reflexivity).
    reflexivity. }
  split; [reflexivity | split; [exact Elo | split; [exact Ehi |]]].
  destruct (Qle_bool (roundQ 1 12) (roundQ 1 (h + (9 # 10)))) eqn:E; [| reflexivity].
  apply Qle_bool_iff in E. rewrite Ehi in E.
  assert (E12 : roundQ 1 12 == 12) by reflexivity. rewrite E12 in E. lra.
Qed.

(** X22.  The estimate, the confidence and the tone group of a mapped response
    are always numbers, even when the interval is not; the explanation
    list has between one and three entries. *)
Theorem structured_result_well_formed (env : Env) (data : Backend.Data)
    (img : string) (p : Backend.Prediction) :
  Backend.prediction data = Some p ->
  exists r e c t,
    ApiService.mapBackendToFrontend env data img = Returns r /\
    Types.hb_estimate_g_dl r = Num e /\
    Types.confidence r = Num c /\
    Types.tone_group r = Num t /\
    (1 <= length (Spec.features_of r) <= 3)%nat.
Proof.
  intros Hp. unfold ApiService.mapBackendToFrontend. rewrite Hp.
  destruct (confidenceOf_bounds p) as (c & Hc & _).
  destruct (or_number_cases (Backend.hb_g_per_dl p) 12)
    as [(e & _ & _ & He) | (_ & He)];
  destruct (or_number_cases
              (match Backend.preprocessing data with
               | Some q => Backend.tone_cluster q
               | None => None
               end) 3)
    as [(t & _ & _ & Ht) | (_ & Ht)];
  eexists; eexists; eexists; eexists;
  (split; [reflexivity |]);
  cbn [Types.hb_estimate_g_dl Types.confidence Types.tone_group];
  rewrite He, Hc, Ht; cbn [parseFloat_toFixed];
  (split; [reflexivity | split; [reflexivity | split; [reflexivity |]]]);
  unfold Spec.features_of;
  cbn [Types.explanations Types.top_contributing_features];
  pose proof (mappedFeatures_length data) as Hlen;
  destruct (Nat.ltb_spec 0 (length (ApiService.mappedFeatures data)));
  cbn [length ApiService.placeholders]; lia.
Qed.

End MoreNormalization.

Section MoreConfidence.

Local Open Scope Q_scope.

Import JS.

Lemma clamp_mono (x y lo hi : Q) :
  x <= y -> Spec.clamp x lo hi <= Spec.clamp y lo hi.
Proof.
  intros H. unfold Spec.clamp.
  apply Q.max_le_compat_l. now apply Q.min_le_compat_l.
Qed.

(** X23.  Among supplied non-zero uncertainties the stored confidence never
    increases with the uncertainty. *)
Theorem confidence_antitone (env1 env2 : Env) (data1 data2 : Backend.Data)
    (img1 img2 : string) (p1 p2 : Backend.Prediction) (u1 u2 : Q) :
  Backend.prediction data1 = Some p1 ->
  Backend.prediction data2 = Some p2 ->
  Backend.uncertainty p1 = Some (Num u1) ->
  Backend.uncertainty p2 = Some (Num u2) ->
  ~ u1 == 0 -> ~ u2 == 0 ->
  u1 <= u2 ->
  exists r1 r2,
    ApiService.mapBackendToFrontend env1 data1 img1 = Returns r1 /\
    ApiService.mapBackendToFrontend env2 data2 img2 = Returns r2 /\
    le (Types.confidence r2) (Types.confidence r1) = true.
Proof.
  intros Hp1 Hp2 Hu1 Hu2 Hn1 Hn2 Hle.
  destruct (confidence_from_uncertainty env1 data1 img1 p1 u1 Hp1 Hu1 Hn1)
    as (r1 & Hr1 & Hc1).
  destruct (confidence_from_uncertainty env2 data2 img2 p2 u2 Hp2 Hu2 Hn2)
    as (r2 & Hr2 & Hc2).
  exists r1, r2. split; [exact Hr1 | split; [exact Hr2 |]].
  destruct (Types.confidence r1) as [| c1]; [contradiction |].
  destruct (Types.confidence r2) as [| c2]; [contradiction |].
  cbn [is_value] in Hc1, Hc2. apply le_true. rewrite Hc1, Hc2.
  apply roundQ_mono, clamp_mono. lra.
Qed.

Lemma determineDirection_cases (c : Q) :
  (c < - (1 # 10) /\ ApiService.determineDirection (Num c) = Types.low) \/
  ((1 # 10) < c /\ ApiService.determineDirection (Num c) = Types.high) \/
  (- (1 # 10) <= c <= (1 # 10) /\
   ApiService.determineDirection (Num c) = Types.normal).
Proof.
  unfold ApiService.determineDirection, gt. cbn [lt].
  destruct (Qltb c (- (1 # 10))) eqn:E1.
  - left. apply Qltb_spec in E1. now split.
  - apply Qltb_false in E1. destruct (Qltb (1 # 10) c) eqn:E2.
    + right. left. apply Qltb_spec in E2. now split.
    + right. right. apply Qltb_false in E2. now split.
Qed.

(** X24.  The direction of a contribution: low strictly below -0.1, high strictly
    above 0.1, normal in between, both ends included, and for [NaN];
    negating a contribution swaps low and high. *)
Theorem determineDirection_spec (c : Q) :
  (ApiService.determineDirection (Num c) = Types.low <-> c < - (1 # 10)) /\
  (ApiService.determineDirection (Num c) = Types.high <-> (1 # 10) < c) /\
  (ApiService.determineDirection (Num c) = Types.normal <->
     - (1 # 10) <= c <= (1 # 10)) /\
  ApiService.determineDirection NaN = Types.normal /\
  ApiService.determineDirection (Num (- c))
    = System.opposite (ApiService.determineDirection (Num c)).
Proof.
  destruct (determineDirection_cases c) as [[H ->] | [[H ->] | [H ->]]];
  destruct (determineDirection_cases (- c)) as [[H' ->] | [[H' ->] | [H' ->]]];
  repeat split; intros; try reflexivity; try discriminate; try lra.
Qed.

End MoreConfidence.

(** * Further facts about the fallback *)

Section MoreFallback.

Local Open Scope Q_scope.

Import JS.

(** X25.  For draws in [[0, 1)] the mock result has a confidence in
    [[0.85, 0.95]], an integer tone group from 1 to 5, a class that is never
    Severe, and an ordered interval that contains the stored estimate. *)
Theorem generateMockResult_ranges (env : Env) (img : string) :
  random_ok (random_hb env) ->
  random_ok (random_confidence env) ->
  random_ok (random_tone env) ->
  let r := GeminiService.generateMockResult env img in
  (exists c, Types.confidence r = Num c /\ (85 # 100) <= c <= (95 # 100)) /\
  (exists k, (1 <= k <= 5)%Z /\ is_value (Types.tone_group r) (inject_Z k)) /\
  Types.anemia_class r <> Types.SEVERE /\
  le (fst (Types.hb_ci_95 r)) (Types.hb_estimate_g_dl r) = true /\
  le (Types.hb_estimate_g_dl r) (snd (Types.hb_ci_95 r)) = true.
Proof.
  intros Hh [Hc0 Hc1] [Ht0 Ht1] r. subst r. split; [| split; [| split; [| split]]].
  - eexists. split; [reflexivity |]. lra.
  - exists (Qfloor (random_tone env * 5) + 1)%Z. split.
    + assert (0 <= Qfloor (random_tone env * 5))%Z
        by (apply (Qfloor_ge_Z 0); unfold inject_Z; lra).
      assert (Qfloor (random_tone env * 5) < 5)%Z.
      { apply Z.lt_nge. intros Hge. rewrite Zle_Qle in Hge.
        pose proof (Qfloor_le (random_tone env * 5)) as Hf.
        change (inject_Z 5) with 5 in Hge. lra. }
      lia.
    + cbn [GeminiService.generateMockResult Types.tone_group add mul lift2
           Math_floor is_value].
      rewrite inject_Z_plus. reflexivity.
  - pose proof (mock_class_thresholds env img) as (_ & _ & _ & Hs).
    destruct (drawn_hb_range env Hh) as [Hlo _].
    intros Hsev.
    pose proof (mock_class_thresholds env img) as (Hn & Hm & Ho & _).
    destruct (Qlt_le_dec (Spec.drawn_hb env) 11) as [H11 | H11].
    + destruct (Qlt_le_dec (Spec.drawn_hb env) (95 # 10)) as [H95 | H95].
      * rewrite Ho in Hsev by lra. discriminate.
      * rewrite Hm in Hsev by lra. discriminate.
    + rewrite Hn in Hsev by lra. discriminate.
  - cbn [GeminiService.generateMockResult Types.hb_ci_95 Types.hb_estimate_g_dl
         fst snd add sub mul lift2 parseFloat_toFixed].
    apply le_true, roundQ_mono. lra.
  - cbn [GeminiService.generateMockResult Types.hb_ci_95 Types.hb_estimate_g_dl
         fst snd add sub mul lift2 parseFloat_toFixed].
    apply le_true, roundQ_mono. lra.
Qed.

Lemma mock_class_normal_iff (env : Env) (img : string) :
  Types.anemia_class (GeminiService.generateMockResult env img) = Types.NORMAL <->
  11 <= Spec.drawn_hb env.
Proof.
  pose proof (mock_class_thresholds env img) as (Hn & Hm & Ho & Hs).
  split; [| exact Hn]. intros Hc.
  destruct (Qlt_le_dec (Spec.drawn_hb env) 11) as [H11 | H11]; [| exact H11].
  exfalso.
  destruct (Qlt_le_dec (Spec.drawn_hb env) (95 # 10)) as [H95 | H95].
  - destruct (Qlt_le_dec (Spec.drawn_hb env) 8) as [H8 | H8].
    + rewrite Hs in Hc by lra. discriminate.
    + rewrite Ho in Hc by lra. discriminate.
  - rewrite Hm in Hc by lra. discriminate.
Qed.

(** X26.  The three explanations of the mock result follow the computed
    value and agree with the class: there is a value in [[9, 13]], less
    than a tenth away from the stored estimate, for which the colour ratio
    is low exactly below 12, the vascular density is low exactly below 10,
    and the class is Normal exactly from 11 upwards.
    Read on the stored estimate: below 12 the colour ratio is low and above
    12 normal, below 10 the vascular density is low and above 10 normal.
    The lunula is always normal; a class other than Normal has a low colour
    ratio, and a low vascular density comes with a low colour ratio and a
    class other than Normal. *)
Theorem generateMockResult_explanations (env : Env) (img : string) :
  random_ok (random_hb env) ->
  let r := GeminiService.generateMockResult env img in
  exists hb e f1 f2 f3,
    Spec.features_of r = [f1; f2; f3] /\
    Types.name f1 = "R_G_ratio" /\
    Types.name f2 = "vascular_density" /\
    Types.name f3 = "lunula_visibility" /\
    Types.hb_estimate_g_dl r = Num e /\
    9 <= hb /\ hb <= 13 /\
    hb - (1 # 10) < e /\ e < hb + (1 # 10) /\
    (Types.direction f1 = Types.low <-> hb < 12) /\
    (Types.direction f2 = Types.low <-> hb < 10) /\
    (Types.anemia_class r = Types.NORMAL <-> 11 <= hb) /\
    (e < 12 -> Types.direction f1 = Types.low) /\
    (12 < e -> Types.direction f1 = Types.normal) /\
    (e < 10 -> Types.direction f2 = Types.low) /\
    (10 < e -> Types.direction f2 = Types.normal) /\
    Types.direction f3 = Types.normal /\
    (Types.anemia_class r <> Types.NORMAL -> Types.direction f1 = Types.low) /\
    (Types.direction f2 = Types.low ->
     Types.direction f1 = Types.low /\ Types.anemia_class r <> Types.NORMAL).
Proof.
  intros Hr. destruct (drawn_hb_range env Hr) as [Hlo Hhi].
  cbv zeta. pose proof (mock_class_normal_iff env img) as Hn.
  set (cls := Types.anemia_class (GeminiService.generateMockResult env img)) in *.
  clearbody cls.
  exists (Spec.drawn_hb env), (roundQ 1 (Spec.drawn_hb env)).
  unfold GeminiService.generateMockResult, Spec.features_of.
  cbn [Types.explanations Types.top_contributing_features Types.hb_estimate_g_dl
       add sub mul lift2 lt parseFloat_toFixed].
  fold (Spec.drawn_hb env).
  eexists. eexists. eexists. split; [reflexivity |].
  cbn [Types.name Types.direction].
  repeat (split; [reflexivity |]).
  destruct (roundQ_one_decimal (Spec.drawn_hb env)) as [Nlo Nhi].
  split; [lra |]. split; [lra |]. split; [lra |]. split; [lra |].
  set (hb := Spec.drawn_hb env) in *.
  assert (U12 : hb <= 12 -> roundQ 1 hb <= 12)
    by (apply (roundQ_le_const 1 120); reflexivity).
  assert (L12 : 12 <= hb -> 12 <= roundQ 1 hb)
    by (apply (roundQ_ge_const 1 120); reflexivity).
  assert (U10 : hb <= 10 -> roundQ 1 hb <= 10)
    by (apply (roundQ_le_const 1 100); reflexivity).
  assert (L10 : 10 <= hb -> 10 <= roundQ 1 hb)
    by (apply (roundQ_ge_const 1 100); reflexivity).
  destruct (Qltb hb 12) eqn:E12;
  destruct (Qltb hb 10) eqn:E10;
  repeat match goal with
         | H : Qltb _ _ = true |- _ => apply Qltb_spec in H
         | H : Qltb _ _ = false |- _ => apply Qltb_false in H
         end;
  try (exfalso; lra);
  (split; [split; intros; try reflexivity; try discriminate; lra |]);
  (split; [split; intros; try reflexivity; try discriminate; lra |]);
  (split; [exact Hn |]);
  (split; [intros He; try reflexivity; exfalso;
           try (assert (12 <= roundQ 1 hb) by (apply L12; lra)); lra |]);
  (split; [intros He; try reflexivity; exfalso;
           try (assert (roundQ 1 hb <= 12) by (apply U12; lra)); lra |]);
  (split; [intros He; try reflexivity; exfalso;
           try (assert (10 <= roundQ 1 hb) by (apply L10; lra)); lra |]);
  (split; [intros He; try reflexivity; exfalso;
           try (assert (roundQ 1 hb <= 10) by (apply U10; lra)); lra |]);
  (split; [reflexivity |]);
  (split; [intros Hc; try reflexivity; exfalso; apply Hc, Hn; lra |]);
  intros Hd; try discriminate Hd;
  (split; [reflexivity || (exfalso; lra) |]);
  intros Hc; apply Hn in Hc; lra.
Qed.

(** X27.  When the generative response parses to an object with a numeric
    estimate, that estimate, stored unrounded, lies inside the interval
    synthesized around it. *)
Theorem generative_estimate_in_interval (svc : GeminiService.Service) (env : Env)
    (img : string) (k : ascii) (key : string) (t : ascii) (text : string)
    (data : GeminiService.Data) (h : Q) :
  GeminiService.API_KEY svc = Some (String k key) ->
  GeminiService.generateContent svc
    = GeminiService.CallReturns (Some (String t text)) ->
  GeminiService.JSON_parse svc (String t text) = GeminiService.ParsedObject data ->
  GeminiService.hb_estimate_g_dl data = Num h ->
  exists r,
    GeminiService.analyzeNailImage svc env img = Returns r /\
    Types.hb_estimate_g_dl r = Num h /\
    le (fst (Types.hb_ci_95 r)) (Types.hb_estimate_g_dl r) = true /\
    le (Types.hb_estimate_g_dl r) (snd (Types.hb_ci_95 r)) = true.
Proof.
  intros Hk Hg Hj Hh.
  unfold GeminiService.analyzeNailImage, GeminiService.tryAnalyze.
  rewrite Hk, Hg, Hj. eexists. split; [reflexivity |].
  cbn [Types.hb_estimate_g_dl Types.hb_ci_95 fst snd]. rewrite Hh.
  cbn [sub add lift2 parseFloat_toFixed].
  pose proof (roundQ_one_decimal (h - (9 # 10))) as Hlo.
  pose proof (roundQ_one_decimal (h + (9 # 10))) as Hhi.
  split; [reflexivity | split]; apply le_true; lra.
Qed.

End MoreFallback.

(** X18.  A sign-in followed by a reload: the user found on mount is the one
    [login] returned, shown with the history stored for that user. *)
Theorem login_then_reload (email password : string) (store : App.Store)
    (u : User.User) :
  fst (Storage.login email password store) = Returns u ->
  let st := App.onMount App.initial (snd (Storage.login email password store)) in
  App.user st = Some u /\
  App.isLoadingAuth st = false /\
  App.history st = Storage.getUserHistory (User.id u) store.
Proof.
  unfold Storage.login.
  destruct (Storage.find_user _ _) as [user |]; cbn [fst snd]; [| discriminate].
  intros H. inversion H; subst. now cbn.
Qed.

(** * The properties on the sample inputs *)

Lemma register_keeps_emails_unique_witness :
  NoDup (map User.email
           (Spec.rows (snd (Storage.register Examples.env0 "c@x.com" "secret3" 25
                              User.Other true MoreExamples.store_with_two)))).
Proof.
  apply (register_keeps_emails_unique Examples.env0 "c@x.com" "secret3" 25
           User.Other true MoreExamples.store_with_two).
  apply NoDup_cons. split; [| apply NoDup_singleton].
  intros H. apply list_elem_of_In in H. destruct H as [H | []]. discriminate H.
Defined.

Lemma register_twice_fails_witness :
  Storage.register MoreExamples.env1 "c@x.com" "other" 77 User.Male false
    (snd (Storage.register Examples.env0 "c@x.com" "secret3" 25 User.Other true
            MoreExamples.store_with_two))
  = (Throws Storage.DuplicateEmail,
     snd (Storage.register Examples.env0 "c@x.com" "secret3" 25 User.Other true
            MoreExamples.store_with_two)).
Proof.
  apply (register_twice_fails Examples.env0 MoreExamples.env1 "c@x.com" "secret3"
           "other" 25 77 User.Other User.Male true false MoreExamples.store_with_two).
  intros u [<- | [<- | []]]; discriminate.
Defined.

Lemma register_logout_login_witness :
  Storage.login "c@x.com" "secret3"
    (Storage.logout
       (snd (Storage.register Examples.env0 "c@x.com" "secret3" 25 User.Other true
               MoreExamples.store_with_two)))
  = (fst (Storage.register Examples.env0 "c@x.com" "secret3" 25 User.Other true
            MoreExamples.store_with_two),
     snd (Storage.register Examples.env0 "c@x.com" "secret3" 25 User.Other true
            MoreExamples.store_with_two)).
Proof.
  apply (register_logout_login Examples.env0 "c@x.com" "secret3" 25 User.Other true
           MoreExamples.store_with_two).
  intros u [<- | [<- | []]]; discriminate.
Defined.

Lemma updateUser_rows_witness :
  In MoreExamples.bob
    (Spec.rows (Storage.updateUser MoreExamples.bob MoreExamples.store_with_two)).
Proof.
  apply (updateUser_rows MoreExamples.bob MoreExamples.store_with_two).
  exists MoreExamples.bob. split; [right; now left | reflexivity].
Defined.

Lemma saveScan_frame_witness :
  Storage.getUserHistory "u-alice"
    (Storage.saveScan "u-bob" Examples.scan2 MoreExamples.store_with_two)
  = Storage.getUserHistory "u-alice" MoreExamples.store_with_two.
Proof.
  apply (saveScan_frame "u-bob" Examples.scan2 MoreExamples.store_with_two).
  discriminate.
Defined.

Lemma analyzeNailImage_fulfilled_iff_witness :
  exists r,
    ApiCall.analyzeNailImage MoreExamples.ok_network Examples.env0 MoreExamples.image
    = ApiCall.Fulfilled r.
Proof.
  eexists.
  apply (analyzeNailImage_fulfilled_iff MoreExamples.ok_network Examples.env0
           MoreExamples.image).
  split; [reflexivity |].
  eexists. exists None, Examples.plain_response.
  repeat split; reflexivity.
Defined.

Lemma handleScanComplete_signed_in_witness :
  let (st', store') :=
    App.handleScanComplete Examples.scan2 MoreExamples.app_alice
      MoreExamples.store_with_two in
  Storage.getUserHistory "u-alice" store'
    = Storage.getUserHistory "u-alice" MoreExamples.store_with_two ++ [Examples.scan2] /\
  App.history st' = [Examples.scan1] ++ [Examples.scan2] /\
  App.selectedResult st' = Some Examples.scan2 /\
  App.currentView st' = App.RESULT /\
  App.lastResult st' = Some Examples.scan2 /\
  App.user st' = Some Examples.alice /\
  Storage.users_table store' = Storage.users_table MoreExamples.store_with_two /\
  Storage.getCurrentUser store' = Storage.getCurrentUser MoreExamples.store_with_two.
Proof.
  apply (handleScanComplete_signed_in Examples.scan2 Examples.alice
           MoreExamples.app_alice MoreExamples.store_with_two).
  reflexivity.
Defined.

Lemma handleAnalyze_failure_witness :
  Scan.handleAnalyze MoreExamples.no_hand_network Examples.env0
    MoreExamples.scan_ready MoreExamples.app_alice MoreExamples.store_with_two
  = ({| Scan.capturedImage := Some MoreExamples.image;
        Scan.isProcessing := false;
        Scan.error := Some "no hand detected" |},
     MoreExamples.app_alice, MoreExamples.store_with_two).
Proof.
  apply (handleAnalyze_failure MoreExamples.no_hand_network Examples.env0
           MoreExamples.scan_ready MoreExamples.app_alice MoreExamples.store_with_two
           "d" "ata:image/jpeg;base64,AAAA" MoreExamples.no_hand_response
           (Some "no hand detected") Examples.plain_response);
    reflexivity.
Defined.

Lemma handleAnalyzeFallback_delivers_witness :
  exists r,
    GeminiService.analyzeNailImage Examples.keyless_service Examples.env0
      MoreExamples.image = Returns r /\
    Scan.error
      (fst (fst (Scan.handleAnalyzeFallback Examples.keyless_service Examples.env0
                   MoreExamples.scan_ready MoreExamples.app_alice
                   MoreExamples.store_with_two))) = None /\
    (snd (fst (Scan.handleAnalyzeFallback Examples.keyless_service Examples.env0
                 MoreExamples.scan_ready MoreExamples.app_alice
                 MoreExamples.store_with_two)),
     snd (Scan.handleAnalyzeFallback Examples.keyless_service Examples.env0
            MoreExamples.scan_ready MoreExamples.app_alice
            MoreExamples.store_with_two))
    = App.handleScanComplete r MoreExamples.app_alice MoreExamples.store_with_two.
Proof.
  apply (handleAnalyzeFallback_delivers Examples.keyless_service Examples.env0
           MoreExamples.scan_ready MoreExamples.app_alice MoreExamples.store_with_two
           "d" "ata:image/jpeg;base64,AAAA").
  reflexivity.
Defined.

Lemma login_then_reload_witness :
  let st :=
    App.onMount App.initial
      (snd (Storage.login "b@x.com" "hunter22" MoreExamples.store_with_two)) in
  App.user st = Some MoreExamples.bob /\
  App.isLoadingAuth st = false /\
  App.history st = Storage.getUserHistory "u-bob" MoreExamples.store_with_two.
Proof.
  apply (login_then_reload "b@x.com" "hunter22" MoreExamples.store_with_two
           MoreExamples.bob).
  reflexivity.
Defined.

Lemma structured_estimate_in_interval_witness :
  exists r,
    ApiService.mapBackendToFrontend Examples.env0 Examples.plain_response
      MoreExamples.image = Returns r /\
    (exists e,
       Types.hb_estimate_g_dl r = JS.Num e /\
       ((1234 # 100) - (1 # 10) < e)%Q /\ (e < (1234 # 100) + (1 # 10))%Q) /\
    JS.le (fst (Types.hb_ci_95 r)) (Types.hb_estimate_g_dl r) = true /\
    JS.le (Types.hb_estimate_g_dl r) (snd (Types.hb_ci_95 r)) = true.
Proof.
  apply (structured_estimate_in_interval Examples.env0 Examples.plain_response
           MoreExamples.image Examples.prediction0 (1234 # 100));
    try reflexivity.
  discriminate.
Defined.

Lemma structured_zero_estimate_witness :
  exists r,
    ApiService.mapBackendToFrontend Examples.env0
      (Examples.respond MoreExamples.zero_estimate_prediction None)
      MoreExamples.image = Returns r /\
    JS.is_value (Types.hb_estimate_g_dl r) 12 /\
    JS.is_value (fst (Types.hb_ci_95 r)) (- (9 # 10)) /\
    JS.is_value (snd (Types.hb_ci_95 r)) (9 # 10) /\
    JS.le (Types.hb_estimate_g_dl r) (snd (Types.hb_ci_95 r)) = false.
Proof.
  apply (structured_zero_estimate Examples.env0
           (Examples.respond MoreExamples.zero_estimate_prediction None)
           MoreExamples.image MoreExamples.zero_estimate_prediction 0);
    reflexivity.
Defined.

Lemma structured_result_well_formed_witness :
  exists r e c t,
    ApiService.mapBackendToFrontend Examples.env0 Examples.no_estimate_response
      MoreExamples.image = Returns r /\
    Types.hb_estimate_g_dl r = JS.Num e /\
    Types.confidence r = JS.Num c /\
    Types.tone_group r = JS.Num t /\
    (1 <= length (Spec.features_of r) <= 3)%nat.
Proof.
  eapply (structured_result_well_formed Examples.env0 Examples.no_estimate_response
            MoreExamples.image).
  reflexivity.
Defined.

Lemma confidence_antitone_witness :
  exists r1 r2,
    ApiService.mapBackendToFrontend Examples.env0 Examples.plain_response
      MoreExamples.image = Returns r1 /\
    ApiService.mapBackendToFrontend MoreExamples.env1
      (Examples.respond MoreExamples.uncertain_prediction None)
      MoreExamples.image = Returns r2 /\
    JS.le (Types.confidence r2) (Types.confidence r1) = true.
Proof.
  apply (confidence_antitone Examples.env0 MoreExamples.env1
           Examples.plain_response
           (Examples.respond MoreExamples.uncertain_prediction None)
           MoreExamples.image MoreExamples.image
           Examples.prediction0 MoreExamples.uncertain_prediction
           (5 # 100) (2 # 10));
    try reflexivity; discriminate.
Defined.

Lemma generateMockResult_ranges_witness :
  let r := GeminiService.generateMockResult MoreExamples.env1 MoreExamples.image in
  (exists c, Types.confidence r = JS.Num c /\ ((85 # 100) <= c <= (95 # 100))%Q) /\
  (exists k, (1 <= k <= 5)%Z /\ JS.is_value (Types.tone_group r) (inject_Z k)) /\
  Types.anemia_class r <> Types.SEVERE /\
  JS.le (fst (Types.hb_ci_95 r)) (Types.hb_estimate_g_dl r) = true /\
  JS.le (Types.hb_estimate_g_dl r) (snd (Types.hb_ci_95 r)) = true.
Proof.
  apply (generateMockResult_ranges MoreExamples.env1 MoreExamples.image);
    (split; [discriminate | reflexivity]).
Defined.

Lemma generateMockResult_explanations_witness :
  let r := GeminiService.generateMockResult MoreExamples.env1 MoreExamples.image in
  exists hb e f1 f2 f3,
    Spec.features_of r = [f1; f2; f3] /\
    Types.name f1 = "R_G_ratio" /\
    Types.name f2 = "vascular_density" /\
    Types.name f3 = "lunula_visibility" /\
    Types.hb_estimate_g_dl r = JS.Num e /\
    (9 <= hb)%Q /\ (hb <= 13)%Q /\
    (hb - (1 # 10) < e)%Q /\ (e < hb + (1 # 10))%Q /\
    (Types.direction f1 = Types.low <-> (hb < 12)%Q) /\
    (Types.direction f2 = Types.low <-> (hb < 10)%Q) /\
    (Types.anemia_class r = Types.NORMAL <-> (11 <= hb)%Q) /\
    ((e < 12)%Q -> Types.direction f1 = Types.low) /\
    ((12 < e)%Q -> Types.direction f1 = Types.normal) /\
    ((e < 10)%Q -> Types.direction f2 = Types.low) /\
    ((10 < e)%Q -> Types.direction f2 = Types.normal) /\
    Types.direction f3 = Types.normal /\
    (Types.anemia_class r <> Types.NORMAL -> Types.direction f1 = Types.low) /\
    (Types.direction f2 = Types.low ->
     Types.direction f1 = Types.low /\ Types.anemia_class r <> Types.NORMAL).
Proof.
  apply (generateMockResult_explanations MoreExamples.env1 MoreExamples.image).
  split; [discriminate | reflexivity].
Defined.

Lemma generative_estimate_in_interval_witness :
  exists r,
    GeminiService.analyzeNailImage Examples.overconfident_service Examples.env0
      MoreExamples.image = Returns r /\
    Types.hb_estimate_g_dl r = JS.Num (124 # 10) /\
    JS.le (fst (Types.hb_ci_95 r)) (Types.hb_estimate_g_dl r) = true /\
    JS.le (Types.hb_estimate_g_dl r) (snd (Types.hb_ci_95 r)) = true.
Proof.
  apply (generative_estimate_in_interval Examples.overconfident_service
           Examples.env0 MoreExamples.image "k" "ey" "r" "esponse.json"
           Examples.overconfident_data (124 # 10));
    reflexivity.
Defined.

(** * The sign-in page *)

Section RegexFacts.

Import Regex.

Lemma append_empty (a b : string) :
  a +:+ b = EmptyString -> a = EmptyString /\ b = EmptyString.
Proof. destruct a; [now rewrite append_nil | discriminate]. Qed.

Lemma lang_seq_inv (r1 r2 : regex) (s : string) :
  lang (Seq r1 r2) s -> exists s1 s2, s = s1 +:+ s2 /\ lang r1 s1 /\ lang r2 s2.
Proof. inversion 1; subst. eauto. Qed.

Lemma lang_alt_inv (r1 r2 : regex) (s : string) :
  lang (Alt r1 r2) s -> lang r1 s \/ lang r2 s.
Proof. inversion 1; subst; tauto. Qed.

Lemma lang_class_inv (p : ascii -> bool) (s : string) :
  lang (Class p) s -> exists c, s = String c EmptyString /\ p c = true.
Proof. inversion 1; subst. eauto. Qed.

Lemma lang_never_inv (s : string) : ~ lang Never s.
Proof. inversion 1. Qed.

Lemma lang_eps_inv (s : string) : lang Eps s -> s = EmptyString.
Proof. now inversion 1. Qed.

Lemma nullable_spec (r : regex) : nullable r = true <-> lang r EmptyString.
Proof.
  induction r as [| | p | r IHr s IHs | r IHr s IHs | r IHr]; cbn [nullable].
  - split; [discriminate | intros H; now apply lang_never_inv in H].
  - split; [constructor | reflexivity].
  - split; [discriminate |].
    intros H. apply lang_class_inv in H as (c & H & _). discriminate.
  - rewrite andb_true_iff, IHr, IHs. split.
    + intros [H1 H2]. change EmptyString with (EmptyString +:+ EmptyString).
      now constructor.
    + intros H. apply lang_seq_inv in H as (s1 & s2 & E & H1 & H2).
      symmetry in E. apply append_empty in E as [-> ->]. now split.
  - rewrite orb_true_iff, IHr, IHs. split.
    + intros [H | H]; [now apply lang_alt_l | now apply lang_alt_r].
    + apply lang_alt_inv.
  - split; [constructor | reflexivity].
Qed.

Lemma lang_star_cons_inv (r : regex) (s : string) :
  lang (Star r) s -> forall c s', s = String c s' ->
  exists s1 s2, s' = s1 +:+ s2 /\ lang r (String c s1) /\ lang (Star r) s2.
Proof.
  remember (Star r) as sr eqn:E. intros H. revert r E.
  induction H as [| | | | | r0 | r0 s1 s2 H1 _ H2 IH2]; intros r E; try discriminate E.
  - intros c s' Hs. discriminate Hs.
  - inversion E; subst r0. intros c s' Hs.
    destruct s1 as [| c1 s1].
    + rewrite append_nil in Hs. now apply (IH2 r eq_refl).
    + rewrite append_cons in Hs. inversion Hs; subst.
      now exists s1, s2.
Qed.

Lemma deriv_spec (c : ascii) (r : regex) (s : string) :
  lang (deriv c r) s <-> lang r (String c s).
Proof.
  revert s. induction r as [| | p | r IHr t IHt | r IHr t IHt | r IHr]; intros s;
    cbn [deriv].
  - split; intros H; now apply lang_never_inv in H.
  - split; intros H; [now apply lang_never_inv in H |].
    apply lang_eps_inv in H. discriminate.
  - destruct (p c) eqn:E; split; intros H.
    + apply lang_eps_inv in H. subst. now constructor.
    + apply lang_class_inv in H as (c' & H & _). inversion H; subst. constructor.
    + now apply lang_never_inv in H.
    + apply lang_class_inv in H as (c' & H & Hp). inversion H; subst. congruence.
  - assert (Hseq : lang (Seq (deriv c r) t) s -> lang (Seq r t) (String c s)).
    { intros H. apply lang_seq_inv in H as (s1 & s2 & -> & H1 & H2).
      rewrite <- append_cons. constructor; [now apply IHr | exact H2]. }
    assert (Hinv : lang (Seq r t) (String c s) ->
                   lang (Seq (deriv c r) t) s \/
                   (lang r EmptyString /\ lang (deriv c t) s)).
    { intros H. apply lang_seq_inv in H as (s1 & s2 & E & H1 & H2).
      destruct s1 as [| c1 s1].
      - rewrite append_nil in E. subst s2. right. split; [exact H1 | now apply IHt].
      - rewrite append_cons in E. inversion E; subst.
        left. constructor; [now apply IHr | exact H2]. }
    destruct (nullable r) eqn:N; split.
    + intros H. apply lang_alt_inv in H as [H | H]; [now apply Hseq |].
      rewrite <- (append_nil (String c s)). constructor;
        [now apply nullable_spec | now apply IHt].
    + intros H. destruct (Hinv H) as [H' | [_ H']];
        [now apply lang_alt_l | now apply lang_alt_r].
    + exact Hseq.
    + intros H. destruct (Hinv H) as [H' | [Hn _]]; [exact H' |].
      apply nullable_spec in Hn. congruence.
  - split; intros H; apply lang_alt_inv in H as [H | H];
      solve [apply lang_alt_l; now apply IHr | apply lang_alt_r; now apply IHt].
  - split; intros H.
    + apply lang_seq_inv in H as (s1 & s2 & -> & H1 & H2).
      rewrite <- append_cons. constructor; [now apply IHr | exact H2].
    + destruct (lang_star_cons_inv r _ H c s eq_refl)
        as (s1 & s2 & -> & H1 & H2).
      constructor; [now apply IHr | exact H2].
Qed.

Lemma matches_spec (r : regex) (s : string) : matches r s = true <-> lang r s.
Proof.
  revert r. induction s as [| c s IH]; intros r; cbn [matches].
  - apply nullable_spec.
  - rewrite IH. apply deriv_spec.
Qed.

Lemma lang_star_class (p : ascii -> bool) (s : string) :
  lang (Star (Class p)) s <-> all_in p s = true.
Proof.
  split.
  - remember (Star (Class p)) as r eqn:E. intros H.
    induction H as [| | | | | r0 | r0 s1 s2 H1 _ H2 IH2]; try discriminate E.
    + reflexivity.
    + inversion E; subst r0.
      apply lang_class_inv in H1 as (c & -> & Hc).
      rewrite append_cons, append_nil. cbn [all_in].
      now rewrite Hc, (IH2 eq_refl).
  - induction s as [| c s IH]; cbn [all_in]; [constructor |].
    intros H. apply andb_true_iff in H as [Hc Hs].
    change (String c s) with (String c EmptyString +:+ s).
    constructor; [now constructor | now apply IH].
Qed.

Lemma lang_plus_class (p : ascii -> bool) (s : string) :
  lang (Plus (Class p)) s <-> s <> EmptyString /\ all_in p s = true.
Proof.
  unfold Plus. split.
  - intros H. apply lang_seq_inv in H as (s1 & s2 & -> & H1 & H2).
    apply lang_class_inv in H1 as (c & -> & Hc). apply lang_star_class in H2.
    rewrite append_cons, append_nil. cbn [all_in]. rewrite Hc, H2.
    split; [discriminate | reflexivity].
  - intros [Hne H]. destruct s as [| c s]; [contradiction |].
    cbn [all_in] in H. apply andb_true_iff in H as [Hc Hs].
    change (String c s) with (String c EmptyString +:+ s).
    constructor; [now constructor | now apply lang_star_class].
Qed.

Lemma lang_atleast2_class (p : ascii -> bool) (s : string) :
  lang (AtLeast2 (Class p)) s <-> (2 <= String.length s)%nat /\ all_in p s = true.
Proof.
  unfold AtLeast2. split.
  - intros H. apply lang_seq_inv in H as (s1 & s' & -> & H1 & H).
    apply lang_seq_inv in H as (s2 & s3 & -> & H2 & H3).
    apply lang_class_inv in H1 as (c1 & -> & Hc1).
    apply lang_class_inv in H2 as (c2 & -> & Hc2).
    apply lang_star_class in H3.
    rewrite !append_cons, !append_nil. cbn [all_in String.length].
    rewrite Hc1, Hc2, H3. split; [lia | reflexivity].
  - intros [Hlen H]. destruct s as [| c1 [| c2 s]]; cbn [String.length] in Hlen;
      try lia.
    cbn [all_in] in H. apply andb_true_iff in H as [Hc1 H].
    apply andb_true_iff in H as [Hc2 Hs].
    change (String c1 (String c2 s))
      with (String c1 EmptyString +:+ (String c2 EmptyString +:+ s)).
    constructor; [now constructor |].
    constructor; [now constructor | now apply lang_star_class].
Qed.

Lemma lang_char (a : ascii) (s : string) :
  lang (Class (Ascii.eqb a)) s <-> s = String a EmptyString.
Proof.
  split.
  - intros H. apply lang_class_inv in H as (c & -> & Hc).
    apply Ascii.eqb_eq in Hc. now subst.
  - intros ->. constructor. apply Ascii.eqb_refl.
Qed.

(** X28.  [validateEmail] accepts exactly the strings of the form
    local, [@], domain, [.], suffix, where the local part is a non-empty
    run of letters, digits and [._%+-], the domain a non-empty run of
    letters, digits, dots and hyphens, and the suffix at least two
    letters. *)
Theorem validateEmail_shape (email : string) :
  Auth.validateEmail email = true <->
  exists local domain suffix,
    email = local +:+ "@" +:+ domain +:+ "." +:+ suffix /\
    local <> EmptyString /\ all_in Auth.local_char local = true /\
    domain <> EmptyString /\ all_in Auth.domain_char domain = true /\
    (2 <= String.length suffix)%nat /\ all_in Auth.alpha suffix = true.
Proof.
  unfold Auth.validateEmail. rewrite matches_spec. unfold Auth.emailRegex. split.
  - intros H. apply lang_seq_inv in H as (local & s1 & -> & Hl & H).
    apply lang_seq_inv in H as (at_ & s2 & -> & Ha & H).
    apply lang_seq_inv in H as (domain & s3 & -> & Hd & H).
    apply lang_seq_inv in H as (dot & suffix & -> & Ho & Hs).
    apply lang_char in Ha, Ho. subst at_ dot.
    apply lang_plus_class in Hl as [Hl1 Hl2].
    apply lang_plus_class in Hd as [Hd1 Hd2].
    apply lang_atleast2_class in Hs as [Hs1 Hs2].
    exists local, domain, suffix. repeat split; assumption.
  - intros (local & domain & suffix & -> & Hl1 & Hl2 & Hd1 & Hd2 & Hs1 & Hs2).
    constructor; [now apply lang_plus_class |].
    constructor; [now apply lang_char |].
    constructor; [now apply lang_plus_class |].
    constructor; [now apply lang_char |].
    now apply lang_atleast2_class.
Qed.

End RegexFacts.

Lemma validateEmail_shape_witness : Auth.validateEmail "a@x.com" = true.
Proof.
  apply (validateEmail_shape "a@x.com").
  exists "a", "x", "com". repeat split; try reflexivity; try discriminate.
  cbn. lia.
Defined.

Section SignIn.

(** On ASCII text the code units are the bytes. *)
Lemma code_units_ascii (s : string) :
  (forall c, In c (list_ascii_of_string s) -> (nat_of_ascii c < 128)%nat) ->
  JS.code_units s = String.length s.
Proof.
  induction s as [| c s IH]; intros H; [reflexivity |].
  cbn [JS.code_units String.length]. rewrite IH.
  - unfold JS.units_of_byte.
    assert (Hc : (nat_of_ascii c < 128)%nat) by (apply H; now left).
    apply Nat.ltb_lt in Hc. now rewrite Hc.
  - intros c' Hc'. apply H. now right.
Qed.

(** X29.  A submission in sign-in mode reaches the store only with a
    well-formed email and a credential of at least six UTF-16 code units
    (what [password.length] counts);
    otherwise it shows the message of the first failing check and changes
    neither the application nor the store.  With valid input and a stored
    user matching both fields, that user is signed in: the session points
    at it, the application shows it with its stored history on the home
    view, and no error is shown.  With valid input and no match, the
    store's message is shown and nothing changes. *)
Theorem handleSubmit_login_spec (auth : Auth.State) (email password : string)
    (st : App.State) (store : App.Store) :
  let out := Auth.handleSubmit_login auth email password st store in
  (Auth.validateEmail email = false ->
   out = ({| Auth.isLoading := Auth.isLoading auth;
             Auth.error := "Please enter a valid email address." |}, st, store)) /\
  (Auth.validateEmail email = true -> (JS.code_units password < 6)%nat ->
   out = ({| Auth.isLoading := Auth.isLoading auth;
             Auth.error := "Password must be at least 6 characters long." |},
          st, store)) /\
  (Auth.validateEmail email = true -> (6 <= JS.code_units password)%nat ->
   (forall u, In u (Spec.rows store) -> ~ Spec.matches email password u) ->
   out = ({| Auth.isLoading := false; Auth.error := "Invalid email or password." |},
          st, store)) /\
  (Auth.validateEmail email = true -> (6 <= JS.code_units password)%nat ->
   (exists u, In u (Spec.rows store) /\ Spec.matches email password u) ->
   exists user,
     In user (Spec.rows store) /\ Spec.matches email password user /\
     Auth.error (fst (fst out)) = EmptyString /\
     App.user (snd (fst out)) = Some user /\
     App.currentView (snd (fst out)) = App.HOME /\
     App.history (snd (fst out)) = Storage.getUserHistory (User.id user) store /\
     Storage.getCurrentUser (snd out) = Some user /\
     Storage.users_table (snd out) = Storage.users_table store).
Proof.
  cbv zeta. unfold Auth.handleSubmit_login.
  split; [intros ->; reflexivity |].
  split; [intros -> Hlen; apply Nat.ltb_lt in Hlen; now rewrite Hlen |].
  split.
  - intros -> Hlen Hnone. apply Nat.ltb_ge in Hlen. rewrite Hlen. cbn [negb].
    unfold Storage.login. rewrite rows_or_object. unfold Storage.find_user.
    destruct (List.find _ (Spec.rows store)) as [u |] eqn:F; [| reflexivity].
    apply find_some in F as [Hin Hm]. apply credentials_spec in Hm.
    now destruct (Hnone u Hin).
  - intros -> Hlen (u & Hin & Hm). apply Nat.ltb_ge in Hlen. rewrite Hlen.
    cbn [negb]. unfold Storage.login. rewrite rows_or_object.
    unfold Storage.find_user.
    destruct (List.find _ (Spec.rows store)) as [user |] eqn:F.
    + apply find_some in F as [Hin' Hm']. apply credentials_spec in Hm'.
      exists user. repeat split; try assumption; apply Hm'.
    + apply (find_none _ _ F) in Hin. apply credentials_spec in Hm. congruence.
Qed.

End SignIn.

Lemma handleSubmit_login_spec_witness :
  Auth.handleSubmit_login MoreExamples.auth_idle "b@x.com"
    MoreExamples.accented_password
    MoreExamples.app_alice MoreExamples.store_with_two
  = ({| Auth.isLoading := false;
        Auth.error := "Password must be at least 6 characters long." |},
     MoreExamples.app_alice, MoreExamples.store_with_two).
Proof.
  apply (handleSubmit_login_spec MoreExamples.auth_idle "b@x.com"
           MoreExamples.accented_password
           MoreExamples.app_alice MoreExamples.store_with_two).
  - reflexivity.
  - vm_compute. lia.
Defined.
